(** * Authentication backend of the MERN boilerplate: a shallow embedding

    The development follows the backend code of the repository, as its
    guides list it (the backend README, AUTHENTICATION_FLOW.md,
    ERROR-HANDLING-EXPLAINED.md and the asyncHandler guide):

    - [AppError] and [errorHandler] with its helpers
      (src/middlewares/errorHandler.js): the complete handler of
      ERROR-HANDLING-EXPLAINED.md, whose two senders are the two branches of
      the handler listed in the README,
    - [asyncHandler] (src/utils/asyncHandler.js),
    - [generateToken] and [createSendToken] (src/utils/jwt.js),
    - [csrfProtection] (src/middlewares/csrfProtection.js),
    - [protect] (src/middlewares/auth.js),
    - [login] and [logout] (src/controllers/auth.controller.js),
    - [registerValidator], [loginValidator] and [validate]
      (src/validators/auth.validator.js) with the validated login route,
    - the cross-origin settings (src/server.js),
    - the response interceptor of the client (frontend, src/api/axios.js).

    The libraries the backend calls (jsonwebtoken, bcryptjs, the user
    collection's identifiers) are parameters of the handlers.

    JavaScript values are modelled as the code uses them: a value that may be
    [undefined] is an [option], truthiness is written out, strings are
    [string], times are milliseconds since the epoch in [Z].  Express handlers
    run in a small monad that threads a log of the calls made to the token
    library and to the user collection, and that can throw. *)

From Stdlib Require Import ZArith List String Ascii Bool Lia.
From Stdlib Require Import DecimalString.
From Stdlib Require DecimalPos DecimalFacts.
Import ListNotations.
Open Scope Z_scope.
Open Scope string_scope.

(* ================================================================== *)
(** ** JavaScript helpers *)

Module Js.

(** Truthiness of a possibly-undefined string: [undefined] and the empty
    string are falsy. *)
Definition truthy_str (v : option string) : bool :=
  match v with
  | Some s => negb (s =? "")
  | None => false
  end.

(** Truthiness of a possibly-undefined number: [undefined] and [0] are
    falsy. *)
Definition truthy_num (v : option Z) : bool :=
  match v with
  | Some n => negb (n =? 0)%Z
  | None => false
  end.

(** [a || d] on possibly-undefined numbers and strings. *)
Definition or_num (v : option Z) (d : Z) : Z :=
  match v with
  | Some n => if (n =? 0)%Z then d else n
  | None => d
  end.

Definition or_str (v : option string) (d : string) : string :=
  match v with
  | Some s => if s =? "" then d else s
  | None => d
  end.

(** [s.startsWith(p)]. *)
Definition startsWith (s p : string) : bool := String.prefix p s.

(** Template-literal conversion of an integer: [`${n}`], for the integers
    JavaScript holds exactly (up to 2^53 - 1 in absolute value), which it
    prints in plain decimal notation. *)
Definition num_to_string (n : Z) : string :=
  NilZero.string_of_int (Z.to_int n).

(** A numeric field read where the code has set it; [0] stands for a
    field left [undefined]. *)
Definition num (v : option Z) : Z :=
  match v with
  | Some n => n
  | None => 0
  end.

(** Template-literal conversion of a possibly-undefined string. *)
Definition str_or_undefined (v : option string) : string :=
  match v with
  | Some s => s
  | None => "undefined"
  end.

(** [s.split(sep)] for a one-character separator; [acc] is the piece being
    read. *)
Fixpoint split_acc (sep : ascii) (acc : string) (s : string) : list string :=
  match s with
  | EmptyString => [acc]
  | String c rest =>
      if Ascii.eqb c sep then acc :: split_acc sep "" rest
      else split_acc sep (acc ++ String c "") rest
  end.

Definition split (sep : ascii) (s : string) : list string :=
  split_acc sep "" s.

(** [arr[i]]: [undefined] out of range. *)
Definition index {A} (l : list A) (i : nat) : option A := nth_error l i.

(** [arr.includes(x)] on strings. *)
Definition includes (l : list string) (x : string) : bool :=
  existsb (String.eqb x) l.

(** Strict equality of two possibly-undefined strings. *)
Definition strict_eq (a b : option string) : bool :=
  match a, b with
  | Some x, Some y => x =? y
  | None, None => true
  | _, _ => false
  end.

(** Lookup of a property in an object given as its list of entries. *)
Fixpoint prop (o : list (string * string)) (k : string) : option string :=
  match o with
  | [] => None
  | (k', v) :: rest => if k' =? k then Some v else prop rest k
  end.

(** [arr.join(sep)]. *)
Fixpoint join (sep : string) (l : list string) : string :=
  match l with
  | [] => ""
  | [x] => x
  | x :: rest => x ++ sep ++ join sep rest
  end.

End Js.

(* ================================================================== *)
(** ** Error objects *)

(** An error object as the central handler inspects it.  Fields that a given
    error does not carry are [None] (or empty).  [name] is ["Error"] unless a
    library sets it; the stack trace is not modelled. *)
Record JsError := mkJsError {
  name          : string;
  message       : string;
  statusCode    : option Z;
  status        : option string;
  isOperational : bool;
  code          : option Z;
  keyPattern    : list string;             (* keys of err.keyPattern *)
  keyValue      : list (string * string);  (* entries of err.keyValue *)
  path          : option string;
  value         : option string;
  errors        : list string              (* messages of err.errors *)
}.

(** [new Error(message)] *)
Definition plainError (m : string) : JsError :=
  mkJsError "Error" m None None false None [] [] None None [].

(** [new AppError(message, statusCode)]:
<<
    this.statusCode = statusCode;
    this.status = `${statusCode}`.startsWith('4') ? 'fail' : 'error';
    this.isOperational = true;
>> *)
Definition AppError (m : string) (c : Z) : JsError :=
  mkJsError "Error" m (Some c)
    (Some (if Js.startsWith (Js.num_to_string c) "4" then "fail" else "error"))
    true None [] [] None None [].

(** Errors raised by the libraries the backend calls. *)
Definition JsonWebTokenError (m : string) : JsError :=
  mkJsError "JsonWebTokenError" m None None false None [] [] None None [].

Definition TokenExpiredError : JsError :=
  mkJsError "TokenExpiredError" "jwt expired" None None false None [] [] None None [].

(** [new TypeError(message)] *)
Definition TypeError (m : string) : JsError :=
  mkJsError "TypeError" m None None false None [] [] None None [].

Definition MongoDuplicateKey (field v : string) : JsError :=
  mkJsError "MongoServerError"
    ("E11000 duplicate key error: " ++ field)
    None None false (Some 11000) [field] [(field, v)] None None [].

(* ================================================================== *)
(** ** Environment, responses *)

Record Env := mkEnv {
  NODE_ENV              : option string;
  JWT_SECRET            : string;
  JWT_EXPIRES_IN        : option string;
  JWT_COOKIE_EXPIRES_IN : option Z;   (* [None]: unset or not a number *)
  CORS_ORIGIN           : option string
}.

(** A [Date] holds a time only within 8.64e15 ms of the epoch; beyond, it
    is the Invalid Date. *)
Definition valid_date (t : Z) : bool :=
  (-8640000000000000 <=? t)%Z && (t <=? 8640000000000000)%Z.

Definition is_production (env : Env) : bool :=
  Js.strict_eq (NODE_ENV env) (Some "production").

Definition is_development (env : Env) : bool :=
  Js.strict_eq (NODE_ENV env) (Some "development").

Record User := mkUser {
  _id      : string;
  username : string;
  email    : string;
  password : option string;   (* the hash; [None] when not selected *)
  isActive : bool
}.

Record Cookie := mkCookie {
  cookie_name  : string;
  cookie_value : string;
  expires      : option Z;     (* ms since the epoch; [None]: Invalid Date *)
  httpOnly     : bool;
  secure       : bool;
  sameSite     : string
}.

Inductive Body :=
| ErrorBody (st msg : string)                   (* { status, message } *)
| DevErrorBody (st : string) (e : JsError) (msg : string)
                                                (* { status, error, message, stack } *)
| TokenBody (st token : string) (u : User)      (* { status, token, data: { user } } *)
| MessageBody (st msg : string)                 (* { status, message } on success *)
| UserBody (st : string) (u : User).            (* { status, data: { user } } *)

Record Response := mkResponse {
  res_status : Z;
  res_cookie : option Cookie;
  res_body   : Body
}.

(* ================================================================== *)
(** ** The central error handler *)

Definition handleCastErrorDB (err : JsError) : JsError :=
  AppError ("Invalid " ++ Js.str_or_undefined (path err) ++ ": "
              ++ Js.str_or_undefined (value err)) 400.

(** [Object.keys(err.keyPattern)[0]], then [err.keyValue[field]], for an
    error that carries both objects. *)
Definition handleDuplicateFieldsDB (err : JsError) : JsError :=
  let field := Js.index (keyPattern err) 0 in
  let v := match field with
           | Some f => Js.prop (keyValue err) f
           | None => None
           end in
  AppError ("Duplicate field value: " ++ Js.str_or_undefined field ++ " = "
              ++ String (ascii_of_nat 34) (Js.str_or_undefined v)
              ++ String (ascii_of_nat 34) ". Please use another value") 400.

(** For an error that carries [errors]. *)
Definition handleValidationErrorDB (err : JsError) : JsError :=
  AppError ("Invalid input data. " ++ Js.join ". " (errors err)) 400.

Definition handleJWTError : JsError :=
  AppError "Invalid token. Please log in again" 401.

Definition handleJWTExpiredError : JsError :=
  AppError "Token expired. Please log in again" 401.

(** The first two statements of [errorHandler]:
<<
    err.statusCode = err.statusCode || 500;
    err.status = err.status || 'error';
>> *)
Definition withDefaults (err : JsError) : JsError :=
  mkJsError (name err) (message err)
    (Some (Js.or_num (statusCode err) 500))
    (Some (Js.or_str (status err) "error"))
    (isOperational err) (code err) (keyPattern err) (keyValue err)
    (path err) (value err) (errors err).

Definition sendErrorDev (err : JsError) : Response :=
  mkResponse (Js.num (statusCode err)) None
    (DevErrorBody (Js.str_or_undefined (status err)) err (message err)).

(** The status sent is one [res.status] takes, from 100 to 999, for the
    errors of this backend. *)
Definition sendErrorProd (error : JsError) : Response :=
  if isOperational error then
    mkResponse (Js.num (statusCode error)) None
      (ErrorBody (Js.str_or_undefined (status error)) (message error))
  else
    mkResponse 500 None (ErrorBody "error" "Something went wrong!").

(** The chain of translations of the production branch.  The tests are made
    on [err] and are not exclusive: a later one overrides an earlier one. *)
Definition translate (err : JsError) : JsError :=
  let error := err in
  let error := if name err =? "CastError" then handleCastErrorDB err else error in
  let error := match code err with
               | Some c => if (c =? 11000)%Z then handleDuplicateFieldsDB err else error
               | None => error
               end in
  let error := if name err =? "ValidationError" then handleValidationErrorDB err else error in
  let error := if name err =? "JsonWebTokenError" then handleJWTError else error in
  let error := if name err =? "TokenExpiredError" then handleJWTExpiredError else error in
  error.

(** [errorHandler(err, req, res, next)]: the error as it is left after the
    two assignments, and the response sent. *)
Definition errorHandler (env : Env) (err0 : JsError) : JsError * Response :=
  let err := withDefaults err0 in
  if is_development env then (err, sendErrorDev err)
  else (err, sendErrorProd (translate err)).

(* ================================================================== *)
(** ** Handlers: state, log and exceptions *)

(** Calls a handler makes to the token library and to the user collection,
    in the order they are made. *)
Inductive Event :=
| EvVerify (token : string)          (* jwt.verify(token, secret) *)
| EvFindById (uid : string)          (* User.findById(uid) *)
| EvFindOne (mail : string)          (* User.findOne({ email }) *)
| EvCreate (uname mail : string).    (* User.create({ ... }) *)

(** The server side of a request: the user collection, which is all the
    backend keeps between requests, and the log of calls.  The log is only
    written, by [emit]; no handler reads it. *)
Record World := mkWorld {
  users : list User;
  log   : list Event
}.

Inductive Outcome (A : Type) :=
| Return (a : A)
| Throw (e : JsError).
Arguments Return {A} a.
Arguments Throw {A} e.

(** An async handler body: it runs on the world, may change it, and either
    returns or throws.  What was done before a throw stays done. *)
Definition M (A : Type) : Type := World -> World * Outcome A.

Definition ret {A} (a : A) : M A := fun w => (w, Return a).

Definition throw {A} (e : JsError) : M A := fun w => (w, Throw e).

Definition bind {A B} (m : M A) (f : A -> M B) : M B :=
  fun w =>
    match m w with
    | (w', Return a) => f a w'
    | (w', Throw e) => (w', Throw e)
    end.

Notation "x <- m ;; k" := (bind m (fun x => k))
  (at level 61, m at next level, right associativity).
Notation "m ;;; k" := (bind m (fun _ => k))
  (at level 61, right associativity).

Definition emit (ev : Event) : M unit :=
  fun w => (mkWorld (users w) (log w ++ [ev])%list, Return tt).

Definition get_users : M (list User) := fun w => (w, Return (users w)).

Definition put_users (us : list User) : M unit :=
  fun w => (mkWorld us (log w), Return tt).

(** The events of a log that read or write the user collection. *)
Definition is_store_access (ev : Event) : bool :=
  match ev with
  | EvVerify _ => false
  | _ => true
  end.

Definition is_verify (ev : Event) : bool :=
  match ev with
  | EvVerify _ => true
  | _ => false
  end.

(* ================================================================== *)
(** ** The user collection *)

(** A document as a default query returns it: the schema declares
    [password] with [select: false]. *)
Definition without_password (u : User) : User :=
  mkUser (_id u) (username u) (email u) None (isActive u).

(** The filters of the queries the backend makes. *)
Definition by_id (uid : string) (u : User) : bool := _id u =? uid.
Definition by_email (mail : string) (u : User) : bool := email u =? mail.
Definition by_username (uname : string) (u : User) : bool := username u =? uname.

(** [User.findById(uid)] *)
Definition findById (uid : string) : M (option User) :=
  emit (EvFindById uid) ;;;
  us <- get_users ;;
  ret (option_map without_password (find (by_id uid) us)).

(** [User.findOne({ email }).select('+password')] *)
Definition findOne_with_password (mail : string) : M (option User) :=
  emit (EvFindOne mail) ;;;
  us <- get_users ;;
  ret (find (by_email mail) us).

(** Setting the active flag of one user directly in the collection. *)
Definition deactivate (uid : string) (us : list User) : list User :=
  map (fun u => if by_id uid u
                then mkUser (_id u) (username u) (email u) (password u) false
                else u) us.

(* ================================================================== *)
(** ** The token library (jsonwebtoken) *)

(** The claims a token of this backend carries; [iat] and [exp] are in
    seconds. *)
Record JwtPayload := mkPayload {
  id  : string;
  iat : Z;
  exp : Z
}.

(** What [jwt.verify] does with a token: it returns the decoded claims, or
    throws a [JsonWebTokenError] (malformed token, wrong signature) or a
    [TokenExpiredError]. *)
Inductive VerifyResult :=
| Decoded (p : JwtPayload)
| Invalid (msg : string)
| Expired.

Module Ms.

(** A reader of the short time spans, for the concrete runs: a decimal
    count followed by one of the short units of the [ms] package, or by
    nothing (milliseconds).  The result is in milliseconds; [None] for a
    string it does not read.  The handlers do not use it: they take
    jsonwebtoken's own reading of a span as a parameter. *)
Definition digit (c : ascii) : option Z :=
  let n := Z.of_nat (nat_of_ascii c) in
  if (48 <=? n)%Z && (n <=? 57)%Z then Some (n - 48) else None.

Fixpoint scan (s : string) (acc : option Z) : option Z * string :=
  match s with
  | EmptyString => (acc, EmptyString)
  | String c rest =>
      match digit c with
      | Some d => scan rest (Some (10 * match acc with Some a => a | None => 0 end + d))
      | None => (acc, s)
      end
  end.

Definition unit_ms (u : string) : option Z :=
  if u =? "" then Some 1
  else if u =? "ms" then Some 1
  else if u =? "s" then Some 1000
  else if u =? "m" then Some 60000
  else if u =? "h" then Some 3600000
  else if u =? "d" then Some 86400000
  else if u =? "w" then Some 604800000
  else None.

Definition ms (s : string) : option Z :=
  match scan s None with
  | (Some n, u) => option_map (Z.mul n) (unit_ms u)
  | (None, _) => None
  end.

End Ms.

(* ================================================================== *)
(** ** Requests *)

Record Request := mkRequest {
  method        : string;
  cookies_token : option string;   (* req.cookies.token *)
  authorization : option string;   (* req.headers.authorization *)
  origin        : option string;   (* req.get('origin') *)
  referer       : option string    (* req.get('referer') *)
}.

(** What a middleware does with a request: it calls [next()] or it sends a
    response itself. *)
Inductive Middleware :=
| Next
| Responds (r : Response).

(* ================================================================== *)
(** ** The origin check (src/middlewares/csrfProtection.js) *)

Definition csrf_rejection : Response :=
  mkResponse 403 None (ErrorBody "error" "CSRF validation failed").

Definition csrfProtection (env : Env) (req : Request) : Middleware :=
  if negb (is_production env) || Js.includes ["GET"; "HEAD"; "OPTIONS"] (method req)
  then Next
  else
    let allowedOrigin := CORS_ORIGIN env in
    if Js.truthy_str (origin req) && negb (Js.strict_eq (origin req) allowedOrigin)
    then Responds csrf_rejection
    else if Js.truthy_str (referer req)
            && negb (Js.startsWith (Js.str_or_undefined (referer req))
                                   (Js.str_or_undefined allowedOrigin))
    then Responds csrf_rejection
    else Next.

(* ================================================================== *)
(** ** Handlers over the libraries *)

Section Backend.

(** [jwt.verify(token, secret)] at a given time (ms), [jwt.sign] on the
    claims it embeds, and the two bcryptjs functions. *)
Variable jwt_verify : string -> string -> Z -> VerifyResult.
Variable jwt_sign : JwtPayload -> string -> string.
(** jsonwebtoken's reading of [expiresIn]: for a span and an issuance time
    in seconds, the expiry in seconds, or nothing when the [ms] package
    cannot read the span. *)
Variable jwt_timespan : string -> Z -> option Z.
Variable bcrypt_compare : string -> string -> bool.
Variable bcrypt_hash : string -> string.
(** The identifier the collection gives to a new document. *)
Variable new_id : list User -> string.

(** *** src/utils/jwt.js *)

(** The claims [jwt.sign({ id }, secret, { expiresIn })] embeds at time
    [now]: [iat] is the time in whole seconds, [exp] is what the library
    reads from the span at that time.  An unreadable span makes [jwt.sign]
    throw. *)
Definition claims (uid : string) (expiresIn : string) (now : Z)
  : option JwtPayload :=
  let t := now / 1000 in
  match jwt_timespan expiresIn t with
  | Some e => Some (mkPayload uid t e)
  | None => None
  end.

(** [generateToken(userId)]:
    [jwt.sign({ id: userId }, JWT_SECRET, { expiresIn: JWT_EXPIRES_IN || '7d' })] *)
Definition generateToken (env : Env) (now : Z) (userId : string) : M string :=
  match claims userId (Js.or_str (JWT_EXPIRES_IN env) "7d") now with
  | Some p => ret (jwt_sign p (JWT_SECRET env))
  | None => throw (plainError "invalid expiresIn option")
  end.

(** [new Date(Date.now() + JWT_COOKIE_EXPIRES_IN * 24 * 60 * 60 * 1000)]:
    [None] is the Invalid Date, which it is when the setting is unset or
    not a number and when the time falls outside the range of [Date]. *)
Definition cookie_expires (env : Env) (now : Z) : option Z :=
  match JWT_COOKIE_EXPIRES_IN env with
  | Some days =>
      let t := now + days * 24 * 60 * 60 * 1000 in
      if valid_date t then Some t else None
  | None => None
  end.

Definition cookieOptions (env : Env) (now : Z) (value : string) : Cookie :=
  mkCookie "token" value
    (cookie_expires env now)
    true
    (is_production env)
    (if is_production env then "none" else "strict").

(** [createSendToken(user, statusCode, res)], [signToken] being
    [generateToken]; [now] is what the clock reads while the response is
    built (the reading of [jwt.sign] and the one of [Date.now()] are taken
    as one instant).  [res.cookie] throws on an Invalid Date. *)
Definition createSendToken (env : Env) (now : Z) (user : User) (sc : Z)
  : M Response :=
  token <- generateToken env now (_id user) ;;
  match cookie_expires env now with
  | Some _ =>
      ret (mkResponse sc (Some (cookieOptions env now token))
             (TokenBody "success" token user))
  | None => throw (TypeError "option expires is invalid")
  end.

(** *** src/middlewares/auth.js *)

(** Step 1 of [protect]: the cookie, else the [Authorization] header. *)
Definition extractToken (req : Request) : option string :=
  if Js.truthy_str (cookies_token req) then cookies_token req
  else if Js.truthy_str (authorization req)
          && Js.startsWith (Js.str_or_undefined (authorization req)) "Bearer"
  then Js.index (Js.split " " (Js.str_or_undefined (authorization req))) 1
  else None.

Definition verify (env : Env) (now : Z) (token : string) : M JwtPayload :=
  emit (EvVerify token) ;;;
  match jwt_verify token (JWT_SECRET env) now with
  | Decoded p => ret p
  | Invalid msg => throw (JsonWebTokenError msg)
  | Expired => throw TokenExpiredError
  end.

(** [protect]: the user it attaches to the request when it calls
    [next()], or the error it throws. *)
Definition protect (env : Env) (now : Z) (req : Request) : M User :=
  let token := extractToken req in
  if negb (Js.truthy_str token) then
    throw (AppError "You are not logged in" 401)
  else
    decoded <- verify env now (Js.str_or_undefined token) ;;
    user <- findById (id decoded) ;;
    match user with
    | None => throw (AppError "User no longer exists" 401)
    | Some u =>
        if negb (isActive u) then
          throw (AppError "User account is deactivated" 401)
        else ret u
    end.

(** *** src/controllers/auth.controller.js *)

(** [userSchema.methods.correctPassword]: [bcrypt.compare] rejects when
    the hash it is given is not a string. *)
Definition correctPassword (candidatePassword : string)
           (userPassword : option string) : M bool :=
  match userPassword with
  | Some hash => ret (bcrypt_compare candidatePassword hash)
  | None => throw (plainError "Illegal arguments: string, undefined")
  end.

(** [login].  The lookup and the credential check are the controller's
    code (its single [throw] behind [!user || !(await ...)] is the first
    two arms here); the source elides what follows them.
    Modelled from the spec: the rest of [login], absent from the source:
    a deactivated account is rejected with 403, otherwise a fresh token is
    issued and transported with status 200. *)
Definition login (env : Env) (now : Z) (mail pw : string) : M Response :=
  user <- findOne_with_password mail ;;
  match user with
  | None => throw (AppError "Incorrect email or password" 401)
  | Some u =>
      correct <- correctPassword pw (password u) ;;
      if negb correct then
        throw (AppError "Incorrect email or password" 401)
      else if negb (isActive u) then
        throw (AppError "User account is deactivated" 403)
      else createSendToken env now (without_password u) 200
  end.

(** [logout]: the cookie is overwritten, nothing else is touched. *)
Definition logout (env : Env) (now : Z) : M Response :=
  ret (mkResponse 200
         (Some (mkCookie "token" "none" (Some (now + 10 * 1000)) true
                  (is_production env)
                  (if is_production env then "none" else "strict")))
         (MessageBody "success" "Logged out successfully")).

(** Modelled from the spec: [User.create], absent from the source: the
    collection enforces that usernames and emails are unique and signals a
    violation with the duplicate-key error (code 11000) naming the field;
    the password is hashed as part of creation. *)
Definition create (uname mail pw : string) : M User :=
  emit (EvCreate uname mail) ;;;
  us <- get_users ;;
  if existsb (by_username uname) us then
    throw (MongoDuplicateKey "username" uname)
  else if existsb (by_email mail) us then
    throw (MongoDuplicateKey "email" mail)
  else
    let u := mkUser (new_id us) uname mail (Some (bcrypt_hash pw)) true in
    put_users (us ++ [u])%list ;;;
    ret u.

(** Modelled from the spec: the [register] controller, absent from the
    source: it creates the user, then issues and transports a token with
    status 201; a uniqueness violation propagates to the central
    handler. *)
Definition register (env : Env) (now : Z) (uname mail pw : string)
  : M Response :=
  u <- create uname mail pw ;;
  createSendToken env now (without_password u) 201.

(** Modelled from the spec: the [getMe] controller, absent from the
    source: it returns the identity [protect] resolved. *)
Definition getMe (user : User) : M Response :=
  ret (mkResponse 200 None (UserBody "success" user)).

(** *** src/utils/asyncHandler.js and the routes *)

(** [asyncHandler(fn)] followed by the central handler: a rejection of the
    handler's promise goes to [next], that is to [errorHandler]. *)
Definition asyncHandler (env : Env) (fn : M Response) (w : World)
  : World * Response :=
  match fn w with
  | (w', Return r) => (w', r)
  | (w', Throw e) => (w', snd (errorHandler env e))
  end.

(** [router.get('/me', protect, getMe)] *)
Definition route_me (env : Env) (now : Z) (req : Request) :=
  asyncHandler env (u <- protect env now req ;; getMe u).

(** [router.post('/logout', protect, logout)] *)
Definition route_logout (env : Env) (now : Z) (req : Request) :=
  asyncHandler env (protect env now req ;;; logout env now).

(** [router.post('/login', ..., login)] *)
Definition route_login (env : Env) (now : Z) (mail pw : string) :=
  asyncHandler env (login env now mail pw).

(** [router.post('/register', ..., register)] *)
Definition route_register (env : Env) (now : Z) (uname mail pw : string) :=
  asyncHandler env (register env now uname mail pw).

End Backend.

(* ================================================================== *)
(** ** Observations on runs *)

(** The message a response body carries. *)
Definition body_message (b : Body) : option string :=
  match b with
  | ErrorBody _ msg => Some msg
  | DevErrorBody _ _ msg => Some msg
  | MessageBody _ msg => Some msg
  | TokenBody _ _ _ => None
  | UserBody _ _ => None
  end.

(** The calls a run added to the log of the world it started from. *)
Definition new_events (before after : World) : list Event :=
  skipn (List.length (log before)) (log after).

(** The error [jwt.verify] throws for a result, if it throws. *)
Definition verify_error (r : VerifyResult) : option JsError :=
  match r with
  | Decoded _ => None
  | Invalid msg => Some (JsonWebTokenError msg)
  | Expired => Some TokenExpiredError
  end.


Fixpoint has_space (s : string) : bool :=
  match s with
  | EmptyString => false
  | String c rest => Ascii.eqb c " " || has_space rest
  end.

(* ================================================================== *)
(** ** A small instance of the libraries, for concrete runs *)

Module Fixture.

(** A token here is [id.iat.exp.signature], the signature being the
    secret itself; enough to run the handlers on concrete requests. *)
Definition sign (p : JwtPayload) (secret : string) : string :=
  id p ++ "." ++ Js.num_to_string (iat p) ++ "."
       ++ Js.num_to_string (exp p) ++ "." ++ secret.

Definition number (s : string) : option Z :=
  match Ms.scan s None with
  | (Some n, EmptyString) => Some n
  | _ => None
  end.

Definition verify (token secret : string) (now : Z) : VerifyResult :=
  match Js.split "." token with
  | [i; a; e; s] =>
      match number a, number e with
      | Some a', Some e' =>
          if negb (s =? secret) then Invalid "invalid signature"
          else if (e' <=? now / 1000)%Z then Expired
          else Decoded (mkPayload i a' e')
      | _, _ => Invalid "jwt malformed"
      end
  | _ => Invalid "jwt malformed"
  end.

(** The expiry read from a span: the issuance time plus the span in whole
    seconds. *)
Definition timespan (span : string) (issued : Z) : option Z :=
  option_map (fun millis => issued + millis / 1000) (Ms.ms span).

Definition compare (candidate hash : string) : bool :=
  hash =? "$2a$12$" ++ candidate.

Definition hash (pw : string) : string := "$2a$12$" ++ pw.

Definition new_id (us : list User) : string :=
  "u" ++ Js.num_to_string (Z.of_nat (List.length us)).

Definition production : Env :=
  mkEnv (Some "production") "s3cret" (Some "7d") (Some 7)
        (Some "https://app.example.com").

Definition development : Env :=
  mkEnv (Some "development") "s3cret" (Some "7d") (Some 7)
        (Some "http://localhost:3000").

(** The token lives one day, the cookie seven. *)
Definition short_token : Env :=
  mkEnv (Some "production") "s3cret" (Some "24h") (Some 7)
        (Some "https://app.example.com").

Definition alice : User :=
  mkUser "u0" "alice" "alice@example.com" (Some (hash "Secur3Pass!")) true.

Definition alice_deactivated : User :=
  mkUser "u0" "alice" "alice@example.com" (Some (hash "Secur3Pass!")) false.

Definition world (us : list User) : World := mkWorld us [].

(** Alice's token, issued at time 0 for seven days. *)
Definition alice_token : string := "u0.0.604800.s3cret".

(** The same token with the last character of its signature changed. *)
Definition tampered_token : string := "u0.0.604800.s3creu".

Definition get_with_cookie (tok : string) : Request :=
  mkRequest "GET" (Some tok) None None None.

Definition get_with_header (h : string) : Request :=
  mkRequest "GET" None (Some h) None None.

Definition post_without_headers : Request :=
  mkRequest "POST" None None None None.

End Fixture.

(* ================================================================== *)
(** ** Request validation (src/validators/auth.validator.js) *)

(** Strings are sequences of code units below 256; on them the length and
    the character classes below are those JavaScript computes. *)
Module Validator.

(** [\s] on these code units: tab, line feed, vertical tab, form feed,
    carriage return, space and no-break space. *)
Definition is_space (c : ascii) : bool :=
  let n := nat_of_ascii c in
  ((9 <=? n) && (n <=? 13))%nat || (n =? 32)%nat || (n =? 160)%nat.

(** [str.replace(/^\s+/g, '')] *)
Fixpoint ltrim (s : string) : string :=
  match s with
  | EmptyString => EmptyString
  | String c rest => if is_space c then ltrim rest else s
  end.

(** The string without its trailing white space. *)
Fixpoint rtrim (s : string) : string :=
  match s with
  | EmptyString => EmptyString
  | String c rest =>
      match rtrim rest with
      | EmptyString => if is_space c then EmptyString else String c EmptyString
      | kept => String c kept
      end
  end.

(** [trim(str)] is [rtrim(ltrim(str))]. *)
Definition trim (s : string) : string := rtrim (ltrim s).

(** [isLength({ min, max })] and [isLength({ min })]. *)
Definition isLength (min : nat) (max : option nat) (s : string) : bool :=
  (min <=? String.length s)%nat
  && match max with
     | Some m => (String.length s <=? m)%nat
     | None => true
     end.

(** The class [[a-zA-Z0-9_]]. *)
Definition is_word_char (c : ascii) : bool :=
  let n := nat_of_ascii c in
  ((97 <=? n) && (n <=? 122))%nat || ((65 <=? n) && (n <=? 90))%nat
  || ((48 <=? n) && (n <=? 57))%nat || (n =? 95)%nat.

Fixpoint all_chars (f : ascii -> bool) (s : string) : bool :=
  match s with
  | EmptyString => true
  | String c rest => f c && all_chars f rest
  end.

(** [matches(/^[a-zA-Z0-9_]+$/)] *)
Definition matches_word (s : string) : bool :=
  negb (s =? "") && all_chars is_word_char s.

(** [notEmpty()] *)
Definition notEmpty (s : string) : bool := negb (s =? "").

End Validator.

(** One entry of [errors.array()]. *)
Record FieldError := mkFieldError {
  err_path  : string;
  err_msg   : string;
  err_value : string
}.

(** The bodies of the two validated requests, their fields present. *)
Record RegisterBody := mkRegisterBody {
  rb_username : string;
  rb_email    : string;
  rb_password : string
}.

Record LoginBody := mkLoginBody {
  lb_email    : string;
  lb_password : string
}.

(** What the client gets from a validated route: the 400 of [validate] with
    the list of errors, or the response of the controller. *)
Inductive Reply :=
| ValidationFailed (sc : Z) (st : string) (errs : list FieldError)
| Handled (r : Response).

Definition reply_status (r : Reply) : Z :=
  match r with
  | ValidationFailed sc _ _ => sc
  | Handled res => res_status res
  end.

(** A validator of a chain adds its message when it fails; the chain goes
    on. *)
Definition check (ok : bool) (path msg value : string) : list FieldError :=
  if ok then [] else [mkFieldError path msg value].

Section Validation.

(** [isEmail()] and [normalizeEmail()] of validator.js. *)
Variable isEmail : string -> bool.
Variable normalizeEmail : string -> string.

(** [registerValidator]: the errors of the three chains in order, and the
    body as the sanitizers leave it. *)
Definition registerValidator (b : RegisterBody) : list FieldError * RegisterBody :=
  let u := Validator.trim (rb_username b) in
  let e := Validator.trim (rb_email b) in
  let p := rb_password b in
  ((check (Validator.isLength 3 (Some 30%nat) u) "username"
      "Username must be between 3 and 30 characters" u
    ++ check (Validator.matches_word u) "username"
         "Username can only contain letters, numbers, and underscores" u
    ++ check (isEmail e) "email" "Please provide a valid email" e
    ++ check (Validator.isLength 6 None p) "password"
         "Password must be at least 6 characters" p)%list,
   mkRegisterBody u (normalizeEmail e) p).

(** [loginValidator] *)
Definition loginValidator (b : LoginBody) : list FieldError * LoginBody :=
  let e := Validator.trim (lb_email b) in
  let p := lb_password b in
  ((check (isEmail e) "email" "Please provide a valid email" e
    ++ check (Validator.notEmpty p) "password" "Password is required" p)%list,
   mkLoginBody e p).

(** [validate]: [None] when it calls [next()]. *)
Definition validate (errs : list FieldError) : option Reply :=
  match errs with
  | [] => None
  | _ => Some (ValidationFailed 400 "error" errs)
  end.

Variable jwt_sign : JwtPayload -> string -> string.
Variable jwt_timespan : string -> Z -> option Z.
Variable bcrypt_compare : string -> string -> bool.

(** [router.post('/login', loginValidator, validate, login)] *)
Definition post_login (env : Env) (now : Z) (b : LoginBody) (w : World)
  : World * Reply :=
  let (errs, b') := loginValidator b in
  match validate errs with
  | Some rejection => (w, rejection)
  | None =>
      let (w', r) := route_login jwt_sign jwt_timespan bcrypt_compare env now
                       (lb_email b') (lb_password b') w in
      (w', Handled r)
  end.

End Validation.

(* ================================================================== *)
(** ** Cross-origin settings (src/server.js) *)

Record CorsOptions := mkCorsOptions {
  cors_origin      : string;
  cors_credentials : bool
}.

(** [cors({ origin: process.env.CORS_ORIGIN || 'http://localhost:3000',
            credentials: true })] *)
Definition corsOptions (env : Env) : CorsOptions :=
  mkCorsOptions (Js.or_str (CORS_ORIGIN env) "http://localhost:3000") true.

(* ================================================================== *)
(** ** The client's response interceptor (frontend, src/api/axios.js) *)

(** How a request of the client settles: fulfilled with a response, or
    rejected with an error that carries the response when there is one. *)
Inductive Settled :=
| Fulfilled (r : Response)
| Rejected (r : option Response).

(** Axios fulfils on a status from 200 to 299 and rejects on any other. *)
Definition settle (r : Response) : Settled :=
  if (200 <=? res_status r)%Z && (res_status r <? 300)%Z
  then Fulfilled r else Rejected (Some r).

(** The interceptor: the page the browser is on afterwards
    ([window.location.href]) and the settlement handed to the caller. *)
Definition interceptor (href : string) (s : Settled) : string * Settled :=
  match s with
  | Fulfilled r => (href, Fulfilled r)
  | Rejected resp =>
      (match option_map res_status resp with
       | Some sc => if (sc =? 401)%Z then "/login" else href
       | None => href
       end,
       Rejected resp)
  end.

(* ================================================================== *)
(** ** Further observations *)

(** The errors one of the tests of the production branch of [errorHandler]
    matches. *)
Definition recognised (err : JsError) : bool :=
  (name err =? "CastError")
  || match code err with Some c => (c =? 11000)%Z | None => false end
  || (name err =? "ValidationError")
  || (name err =? "JsonWebTokenError")
  || (name err =? "TokenExpiredError").

(** A string made of spaces only. *)
Definition blank (s : string) : bool :=
  Validator.all_chars Validator.is_space s.

(* ================================================================== *)
(** * Properties *)

(** ** Logs *)

Lemma new_events_same (w : World) : new_events w w = [].
Proof. unfold new_events. apply skipn_all. Qed.

Lemma new_events_app (w : World) (us : list User) (l : list Event) :
  new_events w (mkWorld us (log w ++ l)%list) = l.
Proof.
  unfold new_events; simpl.
  induction (log w) as [|e l' IH]; simpl; auto.
Qed.

(** ** The error class and the central handler *)

Lemma AppError_status_cases (m : string) (c : Z) :
  status (AppError m c) = Some "fail" \/ status (AppError m c) = Some "error".
Proof.
  unfold AppError; simpl.
  destruct (Js.startsWith (Js.num_to_string c) "4"); auto.
Qed.

(** An [AppError] goes through the central handler with its own status code
    and message, in development and outside it. *)
Lemma errorHandler_AppError (env : Env) (m : string) (c : Z) :
  c <> 0 ->
  res_status (snd (errorHandler env (AppError m c))) = c
  /\ body_message (res_body (snd (errorHandler env (AppError m c)))) = Some m
  /\ res_cookie (snd (errorHandler env (AppError m c))) = None.
Proof.
  intros Hc.
  assert (Hor : Js.or_num (Some c) 500 = c).
  { unfold Js.or_num. destruct (Z.eqb_spec c 0); congruence. }
  unfold errorHandler.
  destruct (is_development env); simpl; rewrite ?Hor; auto.
Qed.

(** On the codes HTTP uses, "starts with 4" is "is a 4xx code". *)
Lemma AppError_status_http (m : string) (c : Z) :
  100 <= c <= 599 ->
  status (AppError m c)
  = Some (if (400 <=? c)%Z && (c <=? 499)%Z then "fail" else "error").
Proof.
  intros Hc.
  set (check := fun n : nat =>
        let k := 100 + Z.of_nat n in
        Bool.eqb (Js.startsWith (Js.num_to_string k) "4")
                 ((400 <=? k)%Z && (k <=? 499)%Z)).
  assert (Hall : forallb check (seq 0 500) = true) by (vm_compute; reflexivity).
  rewrite forallb_forall in Hall.
  specialize (Hall (Z.to_nat (c - 100))).
  assert (Hin : In (Z.to_nat (c - 100)) (seq 0 500)) by (apply in_seq; lia).
  specialize (Hall Hin). unfold check in Hall.
  replace (100 + Z.of_nat (Z.to_nat (c - 100))) with c in Hall by lia.
  apply Bool.eqb_prop in Hall.
  unfold AppError; simpl. rewrite Hall. reflexivity.
Qed.


(** ** Extraction of the candidate token *)

Lemma append_snoc (a : string) (c : ascii) (r : string) :
  (a ++ String c "") ++ r = a ++ String c r.
Proof. induction a as [|x a IH]; simpl; [reflexivity | now rewrite IH]. Qed.

Lemma split_acc_no_space (t acc : string) :
  has_space t = false -> Js.split_acc " " acc t = [acc ++ t].
Proof.
  revert acc. induction t as [|c rest IH]; intros acc Hs; simpl in *.
  - f_equal. induction acc as [|x a IHa]; simpl; [reflexivity | now rewrite <- IHa].
  - apply Bool.orb_false_iff in Hs as [Hc Hrest].
    rewrite Hc, (IH _ Hrest), append_snoc. reflexivity.
Qed.


Lemma truthy_nonempty (t : string) : t <> "" -> Js.truthy_str (Some t) = true.
Proof.
  intros Ht. simpl. destruct (String.eqb_spec t ""); [contradiction | reflexivity].
Qed.

Ltac run_protect :=
  unfold protect, bind, verify, findById, emit, get_users, ret, throw; simpl.

Section Guard.

Variable jwt_verify : string -> string -> Z -> VerifyResult.

Lemma extract_cookie (req : Request) :
  Js.truthy_str (cookies_token req) = true ->
  extractToken req = cookies_token req.
Proof. intros H. unfold extractToken. now rewrite H. Qed.

Lemma protect_no_token (env : Env) (now : Z) (req : Request) (w : World) :
  Js.truthy_str (extractToken req) = false ->
  protect jwt_verify env now req w
  = (w, Throw (AppError "You are not logged in" 401)).
Proof. intros H. unfold protect. rewrite H. reflexivity. Qed.

Lemma route_me_throw (env : Env) (now : Z) (req : Request) (w w' : World)
      (e : JsError) :
  protect jwt_verify env now req w = (w', Throw e) ->
  route_me jwt_verify env now req w = (w', snd (errorHandler env e)).
Proof.
  intros H. unfold route_me, asyncHandler, bind. rewrite H. reflexivity.
Qed.

Lemma route_me_not_logged_in (env : Env) (now : Z) (req : Request) (w : World) :
  Js.truthy_str (extractToken req) = false ->
  res_status (snd (route_me jwt_verify env now req w)) = 401
  /\ body_message (res_body (snd (route_me jwt_verify env now req w)))
     = Some "You are not logged in".
Proof.
  intros H.
  rewrite (route_me_throw _ _ _ _ _ _ (protect_no_token env now req w H)).
  simpl.
  destruct (errorHandler_AppError env "You are not logged in" 401) as (H1 & H2 & _);
    [lia | auto].
Qed.

(** C9: without a token cookie, an [Authorization] header that does not
    start with [Bearer] counts as no credential: the request is rejected
    with 401, "You are not logged in", and neither the token library nor
    the user collection is called. *)
Theorem protect_non_bearer_header (env : Env) (now : Z) (req : Request)
        (w : World) (a : string) :
  Js.truthy_str (cookies_token req) = false ->
  authorization req = Some a ->
  Js.startsWith a "Bearer" = false ->
  protect jwt_verify env now req w
  = (w, Throw (AppError "You are not logged in" 401))
  /\ new_events w (fst (protect jwt_verify env now req w)) = []
  /\ res_status (snd (route_me jwt_verify env now req w)) = 401
  /\ body_message (res_body (snd (route_me jwt_verify env now req w)))
     = Some "You are not logged in".
Proof.
  intros Hc Ha Hb.
  assert (He : Js.truthy_str (extractToken req) = false).
  { unfold extractToken. rewrite Hc, Ha. simpl Js.str_or_undefined.
    rewrite Hb, Bool.andb_false_r. reflexivity. }
  pose proof (protect_no_token env now req w He) as Hp.
  split; [exact Hp|]. split.
  - rewrite Hp. apply new_events_same.
  - now apply route_me_not_logged_in.
Qed.

(** *** Runs of [protect] past the extraction *)

Lemma protect_verify_fails (env : Env) (now : Z) (req : Request) (w : World)
      (tok : string) (e : JsError) :
  extractToken req = Some tok -> tok <> "" ->
  verify_error (jwt_verify tok (JWT_SECRET env) now) = Some e ->
  protect jwt_verify env now req w
  = (mkWorld (users w) (log w ++ [EvVerify tok])%list, Throw e).
Proof.
  intros He Ht Hv. run_protect.
  rewrite He, (truthy_nonempty tok Ht). simpl.
  destruct (jwt_verify tok (JWT_SECRET env) now); simpl in Hv;
    inversion Hv; subst; reflexivity.
Qed.

Lemma protect_resolves (env : Env) (now : Z) (req : Request) (w : World)
      (tok : string) (p : JwtPayload) (u : User) :
  extractToken req = Some tok -> tok <> "" ->
  jwt_verify tok (JWT_SECRET env) now = Decoded p ->
  find (by_id (id p)) (users w) = Some u ->
  protect jwt_verify env now req w
  = (mkWorld (users w) ((log w ++ [EvVerify tok]) ++ [EvFindById (id p)])%list,
     if isActive u then Return (without_password u)
     else Throw (AppError "User account is deactivated" 401)).
Proof.
  intros He Ht Hv Hf. run_protect.
  rewrite He, (truthy_nonempty tok Ht). simpl.
  rewrite Hv. simpl. rewrite Hf. simpl.
  destruct (isActive u); reflexivity.
Qed.

Lemma protect_users (env : Env) (now : Z) (req : Request) (w : World) :
  users (fst (protect jwt_verify env now req w)) = users w.
Proof.
  run_protect.
  destruct (Js.truthy_str (extractToken req)); simpl; [|reflexivity].
  destruct (jwt_verify _ _ _); simpl; try reflexivity.
  destruct (find _ (users w)) as [u|]; simpl; [|reflexivity].
  destruct (isActive u); reflexivity.
Qed.

Lemma find_deactivate (uid : string) (us : list User) (u : User) :
  find (by_id uid) us = Some u ->
  find (by_id uid) (deactivate uid us)
  = Some (mkUser (_id u) (username u) (email u) (password u) false).
Proof.
  induction us as [|x us IH]; simpl; [discriminate|].
  destruct (by_id uid x) eqn:Hx; simpl.
  - intros H; inversion H; subst x.
    unfold by_id in *; simpl. rewrite Hx. reflexivity.
  - rewrite Hx. exact IH.
Qed.

Lemma find_by_id_id (uid : string) (us : list User) (u : User) :
  find (by_id uid) us = Some u -> _id u = uid.
Proof.
  intros H. apply find_some in H as [_ H]. unfold by_id in H.
  now apply String.eqb_eq.
Qed.

Lemma errorHandler_verify_error (env : Env) (r : VerifyResult) (e : JsError) :
  verify_error r = Some e ->
  (is_development env = false ->
     res_status (snd (errorHandler env e)) = 401
     /\ res_body (snd (errorHandler env e))
        = ErrorBody "fail"
            (match r with
             | Expired => "Token expired. Please log in again"
             | _ => "Invalid token. Please log in again"
             end))
  /\ (is_development env = true ->
      res_status (snd (errorHandler env e)) = 500).
Proof.
  intros Hv. unfold errorHandler.
  destruct r; simpl in Hv; inversion Hv; subst;
    split; intros Hd; rewrite Hd; simpl; auto.
Qed.

(** C6, as the code has it: a token that fails verification (wrong
    signature, malformed, expired) stops [protect] at the verify step: the
    error of [jwt.verify] is thrown, the only call made is the one to
    [jwt.verify], and the user collection is neither read nor changed.
    Outside development mode the central handler answers 401; in
    development mode it reports the library's error with status 500. *)
Theorem verify_failure_short_circuits (env : Env) (now : Z) (req : Request)
        (w : World) (tok : string) (e : JsError) :
  extractToken req = Some tok -> tok <> "" ->
  verify_error (jwt_verify tok (JWT_SECRET env) now) = Some e ->
  snd (protect jwt_verify env now req w) = Throw e
  /\ new_events w (fst (protect jwt_verify env now req w)) = [EvVerify tok]
  /\ filter is_store_access
       (new_events w (fst (protect jwt_verify env now req w))) = []
  /\ users (fst (protect jwt_verify env now req w)) = users w
  /\ (is_development env = false ->
      res_status (snd (route_me jwt_verify env now req w)) = 401
      /\ res_body (snd (route_me jwt_verify env now req w))
         = ErrorBody "fail"
             (match jwt_verify tok (JWT_SECRET env) now with
              | Expired => "Token expired. Please log in again"
              | _ => "Invalid token. Please log in again"
              end))
  /\ (is_development env = true ->
      res_status (snd (route_me jwt_verify env now req w)) = 500).
Proof.
  intros He Ht Hv.
  pose proof (protect_verify_fails env now req w tok e He Ht Hv) as Hp.
  rewrite (route_me_throw _ _ _ _ _ _ Hp), Hp. simpl fst; simpl snd.
  rewrite new_events_app.
  destruct (errorHandler_verify_error env _ e Hv) as [Hprod Hdev].
  split; [reflexivity|]. split; [reflexivity|]. split; [reflexivity|].
  split; [reflexivity|]. split; assumption.
Qed.

(** C1, as the code has it: a request whose token verifies and resolves
    to a user whose active flag is false is rejected with status 401,
    "User account is deactivated", in every mode; and a token [protect]
    accepted is rejected in that way, unchanged, once the user has been
    deactivated directly in the collection. *)
Theorem deactivated_user_rejected (env : Env) (now : Z) (req : Request)
        (w : World) (tok : string) (p : JwtPayload) (u : User) :
  extractToken req = Some tok -> tok <> "" ->
  jwt_verify tok (JWT_SECRET env) now = Decoded p ->
  find (by_id (id p)) (users w) = Some u ->
  (isActive u = false ->
     snd (protect jwt_verify env now req w)
     = Throw (AppError "User account is deactivated" 401)
     /\ res_status (snd (route_me jwt_verify env now req w)) = 401
     /\ body_message (res_body (snd (route_me jwt_verify env now req w)))
        = Some "User account is deactivated")
  /\ (isActive u = true ->
      let w' := mkWorld (deactivate (_id u) (users w)) (log w) in
      snd (protect jwt_verify env now req w) = Return (without_password u)
      /\ snd (protect jwt_verify env now req w')
         = Throw (AppError "User account is deactivated" 401)
      /\ res_status (snd (route_me jwt_verify env now req w')) = 401
      /\ body_message (res_body (snd (route_me jwt_verify env now req w')))
         = Some "User account is deactivated").
Proof.
  intros He Ht Hv Hf.
  destruct (errorHandler_AppError env "User account is deactivated" 401)
    as (Hs & Hm & _); [lia|].
  split.
  - intros Ha.
    pose proof (protect_resolves env now req w tok p u He Ht Hv Hf) as Hp.
    rewrite Ha in Hp.
    rewrite (route_me_throw _ _ _ _ _ _ Hp), Hp. simpl. auto.
  - intros Ha w'.
    pose proof (protect_resolves env now req w tok p u He Ht Hv Hf) as Hp.
    rewrite Ha in Hp.
    assert (Hf' : find (by_id (id p)) (users w')
                  = Some (mkUser (_id u) (username u) (email u) (password u) false)).
    { unfold w'; simpl users.
      replace (deactivate (_id u) (users w)) with (deactivate (id p) (users w))
        by (now rewrite (find_by_id_id _ _ _ Hf)).
      now apply find_deactivate. }
    pose proof (protect_resolves env now req w' tok p _ He Ht Hv Hf') as Hp'.
    simpl isActive in Hp'. cbv iota in Hp'.
    rewrite (route_me_throw _ _ _ _ _ _ Hp'), Hp, Hp'. simpl. auto.
Qed.

End Guard.

(** ** Logout *)

Section Logout.

Variable jwt_verify : string -> string -> Z -> VerifyResult.

Lemma route_logout_users (env : Env) (now : Z) (req : Request) (w : World) :
  users (fst (route_logout jwt_verify env now req w)) = users w.
Proof.
  unfold route_logout, asyncHandler, bind, logout, ret.
  pose proof (protect_users jwt_verify env now req w) as Hu.
  destruct (protect jwt_verify env now req w) as [w1 [u1|e]]; exact Hu.
Qed.

Lemma route_logout_accepted (env : Env) (now : Z) (req : Request) (w : World)
      (u1 : User) :
  snd (protect jwt_verify env now req w) = Return u1 ->
  snd (route_logout jwt_verify env now req w)
  = mkResponse 200
      (Some (mkCookie "token" "none" (Some (now + 10 * 1000)) true
               (is_production env)
               (if is_production env then "none" else "strict")))
      (MessageBody "success" "Logged out successfully").
Proof.
  unfold route_logout, asyncHandler, bind, logout, ret.
  destruct (protect jwt_verify env now req w) as [w1 [u|e]]; simpl;
    intros H; inversion H; reflexivity.
Qed.

(** C7: logout answers with the cookie overwritten by the sentinel
    ['none'], expiring ten seconds later, and leaves the user collection
    as it was; a token that still verifies, of a user who still exists
    and is active, is accepted by [protect] after the logout as before:
    nothing revokes it. *)
Theorem logout_does_not_revoke (env : Env) (t1 t2 : Z) (req1 req2 : Request)
        (w : World) (tok : string) (p : JwtPayload) (u : User) :
  extractToken req2 = Some tok -> tok <> "" ->
  jwt_verify tok (JWT_SECRET env) t2 = Decoded p ->
  find (by_id (id p)) (users w) = Some u ->
  isActive u = true ->
  let after := fst (route_logout jwt_verify env t1 req1 w) in
  users after = users w
  /\ (forall u1, snd (protect jwt_verify env t1 req1 w) = Return u1 ->
        snd (route_logout jwt_verify env t1 req1 w)
        = mkResponse 200
            (Some (mkCookie "token" "none" (Some (t1 + 10 * 1000)) true
                     (is_production env)
                     (if is_production env then "none" else "strict")))
            (MessageBody "success" "Logged out successfully"))
  /\ snd (protect jwt_verify env t2 req2 after) = Return (without_password u)
  /\ snd (route_me jwt_verify env t2 req2 after)
     = mkResponse 200 None (UserBody "success" (without_password u)).
Proof.
  intros He Ht Hv Hf Ha after.
  assert (Hu : users after = users w) by apply route_logout_users.
  split; [exact Hu|]. split; [intros u1; apply route_logout_accepted|].
  assert (Hf' : find (by_id (id p)) (users after) = Some u) by now rewrite Hu.
  pose proof (protect_resolves jwt_verify env t2 req2 after tok p u He Ht Hv Hf')
    as Hp.
  rewrite Ha in Hp. split.
  - now rewrite Hp.
  - unfold route_me, asyncHandler, bind, getMe, ret. now rewrite Hp.
Qed.

End Logout.

(** ** Login, registration, and the transport of the token *)

Section Operations.

Variable jwt_sign : JwtPayload -> string -> string.
Variable jwt_timespan : string -> Z -> option Z.
Variable bcrypt_compare : string -> string -> bool.
Variable bcrypt_hash : string -> string.
Variable new_id : list User -> string.

Lemma login_rejected (env : Env) (now : Z) (mail pw : string) (w : World) :
  match find (by_email mail) (users w) with
  | None => True
  | Some u => exists h, password u = Some h /\ bcrypt_compare pw h = false
  end ->
  login jwt_sign jwt_timespan bcrypt_compare env now mail pw w
  = (mkWorld (users w) (log w ++ [EvFindOne mail])%list,
     Throw (AppError "Incorrect email or password" 401)).
Proof.
  unfold login, bind, findOne_with_password, emit, get_users, ret, throw,
    correctPassword; simpl.
  destruct (find (by_email mail) (users w)) as [u|]; [|reflexivity].
  intros (h & Hh & Hc). rewrite Hh. simpl. rewrite Hc. reflexivity.
Qed.

(** C4: a login with an email no user has and a login with a known email
    and a password that fails the comparison with the stored hash get the
    same response: status 401 and the message "Incorrect email or
    password". *)
Theorem login_failures_indistinguishable (env : Env) (now : Z)
        (mail1 pw1 mail2 pw2 : string) (w1 w2 : World) (u : User)
        (hash : string) :
  find (by_email mail1) (users w1) = None ->
  find (by_email mail2) (users w2) = Some u ->
  password u = Some hash ->
  bcrypt_compare pw2 hash = false ->
  snd (route_login jwt_sign jwt_timespan bcrypt_compare env now mail1 pw1 w1)
  = snd (route_login jwt_sign jwt_timespan bcrypt_compare env now mail2 pw2 w2)
  /\ res_status
       (snd (route_login jwt_sign jwt_timespan bcrypt_compare env now mail1 pw1 w1))
     = 401
  /\ body_message
       (res_body
          (snd (route_login jwt_sign jwt_timespan bcrypt_compare env now
                  mail1 pw1 w1)))
     = Some "Incorrect email or password".
Proof.
  intros H1 H2 Hh Hc.
  assert (R1 := login_rejected env now mail1 pw1 w1).
  assert (R2 := login_rejected env now mail2 pw2 w2).
  rewrite H1 in R1. rewrite H2 in R2.
  unfold route_login, asyncHandler.
  rewrite (R1 I), (R2 (ex_intro _ hash (conj Hh Hc))). simpl snd.
  destruct (errorHandler_AppError env "Incorrect email or password" 401)
    as (Hs & Hm & _); [lia | auto].
Qed.

(** *** Registration with a taken username or email *)

Lemma create_duplicate (uname mail pw : string) (w : World) :
  existsb (by_username uname) (users w) = true
  \/ existsb (by_email mail) (users w) = true ->
  exists field v,
    create bcrypt_hash new_id uname mail pw w
    = (mkWorld (users w) (log w ++ [EvCreate uname mail])%list,
       Throw (MongoDuplicateKey field v))
    /\ ((field = "username" /\ v = uname) \/ (field = "email" /\ v = mail)).
Proof.
  intros Hdup.
  unfold create, bind, emit, get_users, put_users, ret, throw; simpl.
  destruct (existsb (by_username uname) (users w)) eqn:Hu.
  - exists "username", uname. auto.
  - destruct Hdup as [Hd|Hd]; [discriminate|]. rewrite Hd.
    exists "email", mail. auto.
Qed.

Lemma translate_duplicate (err : JsError) :
  name err = "MongoServerError" -> code err = Some 11000 ->
  translate err = handleDuplicateFieldsDB err.
Proof. intros Hn Hc. unfold translate. rewrite Hn, Hc. reflexivity. Qed.

Lemma handleDuplicateFieldsDB_key (err : JsError) (field v : string) :
  keyPattern err = [field] -> keyValue err = [(field, v)] ->
  handleDuplicateFieldsDB err
  = AppError ("Duplicate field value: " ++ field ++ " = "
                ++ String (ascii_of_nat 34) v
                ++ String (ascii_of_nat 34) ". Please use another value") 400.
Proof.
  intros Hp Hv. unfold handleDuplicateFieldsDB. rewrite Hp, Hv.
  cbn [Js.index nth_error Js.prop]. rewrite String.eqb_refl. reflexivity.
Qed.

Lemma errorHandler_duplicate (env : Env) (field v : string) :
  res_cookie (snd (errorHandler env (MongoDuplicateKey field v))) = None
  /\ (is_development env = false ->
      snd (errorHandler env (MongoDuplicateKey field v))
      = mkResponse 400 None
          (ErrorBody "fail"
             ("Duplicate field value: " ++ field ++ " = "
                ++ String (ascii_of_nat 34) v
                ++ String (ascii_of_nat 34) ". Please use another value")))
  /\ (is_development env = true ->
      res_status (snd (errorHandler env (MongoDuplicateKey field v))) = 500).
Proof.
  assert (Ht : translate (withDefaults (MongoDuplicateKey field v))
               = AppError ("Duplicate field value: " ++ field ++ " = "
                             ++ String (ascii_of_nat 34) v
                             ++ String (ascii_of_nat 34)
                                  ". Please use another value") 400).
  { rewrite translate_duplicate by reflexivity.
    now apply handleDuplicateFieldsDB_key. }
  unfold errorHandler.
  destruct (is_development env); cbn [snd fst].
  - repeat split; intros; try discriminate; reflexivity.
  - rewrite Ht. repeat split; intros; try discriminate; reflexivity.
Qed.

(** C2, as the code has it: a registration whose username or email is
    already in the collection persists nothing and leaves the collection
    as it was; the duplicate-key error of the collection reaches the
    central handler, which outside development mode answers 400 with the
    "Duplicate field value" message naming the field, and in development
    mode reports the error with status 500.  No token is issued. *)
Theorem duplicate_registration_rejected (env : Env) (now : Z)
        (uname mail pw : string) (w : World) :
  existsb (by_username uname) (users w) = true
  \/ existsb (by_email mail) (users w) = true ->
  let run := route_register jwt_sign jwt_timespan bcrypt_hash new_id env now uname mail pw w in
  users (fst run) = users w
  /\ res_cookie (snd run) = None
  /\ (is_development env = false ->
      exists field v,
        ((field = "username" /\ v = uname) \/ (field = "email" /\ v = mail))
        /\ snd run
           = mkResponse 400 None
               (ErrorBody "fail"
                  ("Duplicate field value: " ++ field ++ " = "
                     ++ String (ascii_of_nat 34) v
                     ++ String (ascii_of_nat 34) ". Please use another value")))
  /\ (is_development env = true -> res_status (snd run) = 500).
Proof.
  intros Hdup run.
  destruct (create_duplicate uname mail pw w Hdup) as (field & v & Hc & Hfv).
  assert (Hrun : run = (mkWorld (users w) (log w ++ [EvCreate uname mail])%list,
                        snd (errorHandler env (MongoDuplicateKey field v)))).
  { unfold run, route_register, asyncHandler, register, bind.
    rewrite Hc. reflexivity. }
  destruct (errorHandler_duplicate env field v) as (Hck & Hprod & Hdev).
  rewrite Hrun. cbn [fst snd users].
  split; [reflexivity|]. split; [exact Hck|]. split; [|exact Hdev].
  intros Hd. exists field, v. split; [exact Hfv | exact (Hprod Hd)].
Qed.

(** *** Cookie lifetime and token lifetime *)

(** C8, as the code has it: the two lifetimes are two settings.  When
    jsonwebtoken reads the token's span, however it is written, as the
    cookie's number of days (as in the documented configuration, ['7d'] and
    [7]), and the cookie's expiry is a time a [Date] can hold, the cookie
    that carries a token expires at the token's own expiry or less than a
    second after it. *)
Theorem cookie_expiry_matches_token (env : Env) (now : Z) (user : User)
        (sc : Z) (w : World) (days : Z) :
  jwt_timespan (Js.or_str (JWT_EXPIRES_IN env) "7d") (now / 1000)
  = Some (now / 1000 + days * 86400) ->
  JWT_COOKIE_EXPIRES_IN env = Some days ->
  valid_date (now + days * 86400000) = true ->
  exists p e,
    createSendToken jwt_sign jwt_timespan env now user sc w
    = (w, Return
            (mkResponse sc
               (Some (mkCookie "token" (jwt_sign p (JWT_SECRET env)) (Some e)
                        true (is_production env)
                        (if is_production env then "none" else "strict")))
               (TokenBody "success" (jwt_sign p (JWT_SECRET env)) user)))
    /\ id p = _id user
    /\ iat p = now / 1000
    /\ exp p = iat p + days * 86400
    /\ e = now + days * 86400000
    /\ 0 <= e - 1000 * exp p < 1000.
Proof.
  intros Hts Hdays Hvalid.
  exists (mkPayload (_id user) (now / 1000) (now / 1000 + days * 86400)).
  exists (now + days * 86400000).
  pose proof (Z.mod_pos_bound now 1000 ltac:(lia)) as Hm.
  pose proof (Z.div_mod now 1000 ltac:(lia)) as Hdm.
  split; [|cbn [id iat exp]; repeat split; try reflexivity; lia].
  assert (Hexp : cookie_expires env now = Some (now + days * 86400000)).
  { unfold cookie_expires. rewrite Hdays. cbv zeta.
    replace (now + days * 24 * 60 * 60 * 1000) with (now + days * 86400000)
      by lia.
    now rewrite Hvalid. }
  unfold createSendToken, generateToken, claims, cookieOptions, bind, ret.
  cbv zeta. rewrite Hts. cbn [fst snd]. rewrite Hexp. reflexivity.
Qed.

End Operations.

(** ** The origin check *)

Lemma csrf_read_only (env : Env) (req : Request) :
  Js.includes ["GET"; "HEAD"; "OPTIONS"] (method req) = true ->
  csrfProtection env req = Next.
Proof.
  intros H. unfold csrfProtection. rewrite H, Bool.orb_true_r. reflexivity.
Qed.

Lemma csrf_outside_production (env : Env) (req : Request) :
  is_production env = false -> csrfProtection env req = Next.
Proof. intros H. unfold csrfProtection. rewrite H. reflexivity. Qed.

Lemma csrf_origin_mismatch (env : Env) (req : Request) :
  is_production env = true ->
  Js.includes ["GET"; "HEAD"; "OPTIONS"] (method req) = false ->
  Js.truthy_str (origin req) = true ->
  Js.strict_eq (origin req) (CORS_ORIGIN env) = false ->
  csrfProtection env req = Responds csrf_rejection.
Proof.
  intros Hp Hm Ho Hne. unfold csrfProtection.
  rewrite Hp, Hm, Ho, Hne. reflexivity.
Qed.

Lemma csrf_referer_mismatch (env : Env) (req : Request) (r : string) :
  is_production env = true ->
  Js.includes ["GET"; "HEAD"; "OPTIONS"] (method req) = false ->
  referer req = Some r -> r <> "" ->
  Js.startsWith r (Js.str_or_undefined (CORS_ORIGIN env)) = false ->
  csrfProtection env req = Responds csrf_rejection.
Proof.
  intros Hp Hm Hr Hne Hs. unfold csrfProtection.
  rewrite Hp, Hm, Hr, (truthy_nonempty r Hne). simpl Js.str_or_undefined.
  rewrite Hs. simpl.
  destruct (Js.truthy_str (origin req) && _); reflexivity.
Qed.

(** A state-changing request that carries neither header goes through, in
    production too: both tests of the middleware are guarded by the presence
    of the header they test. *)
Lemma csrf_no_headers (env : Env) (req : Request) :
  origin req = None -> referer req = None -> csrfProtection env req = Next.
Proof.
  intros Ho Hr. unfold csrfProtection. rewrite Ho, Hr. simpl.
  destruct (negb (is_production env) || _); reflexivity.
Qed.

(** C3: in production mode a [POST] that carries neither an [Origin] nor a
    [Referer] header is passed on by the origin check, where the
    specification and the guide of the middleware ("at least one of the two
    headers is present") have it rejected with 403. *)
Theorem csrf_missing_headers_pass :
  is_production Fixture.production = true
  /\ Js.includes ["GET"; "HEAD"; "OPTIONS"] (method Fixture.post_without_headers)
     = false
  /\ csrfProtection Fixture.production Fixture.post_without_headers = Next.
Proof. repeat split. Qed.

(** * Concrete runs *)

(** ** The scenario of a session: register, read, log out, read again *)

Example scenario_register :
  route_register Fixture.sign Fixture.timespan Fixture.hash Fixture.new_id Fixture.production 0
    "alice" "alice@example.com" "Secur3Pass!" (Fixture.world [])
  = (mkWorld [Fixture.alice] [EvCreate "alice" "alice@example.com"],
     mkResponse 201
       (Some (mkCookie "token" Fixture.alice_token (Some 604800000)
                true true "none"))
       (TokenBody "success" Fixture.alice_token (without_password Fixture.alice))).
Proof. vm_compute. reflexivity. Qed.

Example scenario_me_logout_me :
  let w0 := Fixture.world [Fixture.alice] in
  let r := Fixture.get_with_cookie Fixture.alice_token in
  let (w1, me1) := route_me Fixture.verify Fixture.production 1000 r w0 in
  let (w2, out) := route_logout Fixture.verify Fixture.production 2000 r w1 in
  let (w3, me2) := route_me Fixture.verify Fixture.production 3000 r w2 in
  res_status me1 = 200
  /\ option_map cookie_value (res_cookie out) = Some "none"
  /\ option_map expires (res_cookie out) = Some (Some 12000)
  /\ res_status me2 = 200
  /\ users w3 = [Fixture.alice].
Proof. vm_compute. repeat split. Qed.

(** A token issued at time 0 for seven days: accepted after six days,
    rejected after eight. *)
Example token_lifetime :
  res_status (snd (route_me Fixture.verify Fixture.production (6 * 86400000)
                     (Fixture.get_with_cookie Fixture.alice_token)
                     (Fixture.world [Fixture.alice]))) = 200
  /\ res_status (snd (route_me Fixture.verify Fixture.production (8 * 86400000)
                        (Fixture.get_with_cookie Fixture.alice_token)
                        (Fixture.world [Fixture.alice]))) = 401.
Proof. vm_compute. split; reflexivity. Qed.

(** ** The guard on concrete requests *)

(** A deactivated user presenting a valid token gets 401, not 403, in
    production and in development. *)
Lemma deactivated_user_gets_401 :
  Fixture.verify Fixture.alice_token "s3cret" 1000
  = Decoded (mkPayload "u0" 0 604800)
  /\ find (by_id "u0") [Fixture.alice_deactivated] = Some Fixture.alice_deactivated
  /\ isActive Fixture.alice_deactivated = false
  /\ snd (route_me Fixture.verify Fixture.production 1000
            (Fixture.get_with_cookie Fixture.alice_token)
            (Fixture.world [Fixture.alice_deactivated]))
     = mkResponse 401 None (ErrorBody "fail" "User account is deactivated")
  /\ res_status (snd (route_me Fixture.verify Fixture.development 1000
                        (Fixture.get_with_cookie Fixture.alice_token)
                        (Fixture.world [Fixture.alice_deactivated]))) = 401
  /\ 401 <> 403.
Proof. vm_compute. repeat split; discriminate. Qed.

Lemma deactivated_user_rejected_witness :
  let req := Fixture.get_with_cookie Fixture.alice_token in
  let w := Fixture.world [Fixture.alice] in
  let w' := mkWorld (deactivate "u0" (users w)) (log w) in
  snd (protect Fixture.verify Fixture.production 1000 req w)
  = Return (without_password Fixture.alice)
  /\ snd (protect Fixture.verify Fixture.production 1000 req w')
     = Throw (AppError "User account is deactivated" 401)
  /\ res_status (snd (route_me Fixture.verify Fixture.production 1000 req w')) = 401
  /\ body_message (res_body (snd (route_me Fixture.verify Fixture.production 1000 req w')))
     = Some "User account is deactivated".
Proof.
  intros req w w'.
  refine (proj2 (deactivated_user_rejected Fixture.verify Fixture.production 1000
                   req w Fixture.alice_token (mkPayload "u0" 0 604800)
                   Fixture.alice _ _ _ _) _);
    [reflexivity | discriminate | reflexivity | reflexivity | reflexivity].
Defined.

(** A token whose signature has one character changed, in development
    mode: the answer is 500, not 401. *)
Lemma tampered_token_in_development :
  Fixture.verify Fixture.tampered_token "s3cret" 1000 = Invalid "invalid signature"
  /\ route_me Fixture.verify Fixture.development 1000
       (Fixture.get_with_cookie Fixture.tampered_token)
       (Fixture.world [Fixture.alice])
     = (mkWorld [Fixture.alice] [EvVerify Fixture.tampered_token],
        mkResponse 500 None
          (DevErrorBody "error"
             (withDefaults (JsonWebTokenError "invalid signature"))
             "invalid signature"))
  /\ 500 <> 401.
Proof. vm_compute. repeat split; discriminate. Qed.

Lemma verify_failure_short_circuits_witness :
  let req := Fixture.get_with_cookie Fixture.tampered_token in
  let w := Fixture.world [Fixture.alice] in
  let run := protect Fixture.verify Fixture.production 1000 req w in
  snd run = Throw (JsonWebTokenError "invalid signature")
  /\ new_events w (fst run) = [EvVerify Fixture.tampered_token]
  /\ res_status (snd (route_me Fixture.verify Fixture.production 1000 req w)) = 401.
Proof.
  intros req w run.
  destruct (verify_failure_short_circuits Fixture.verify Fixture.production 1000
              req w Fixture.tampered_token (JsonWebTokenError "invalid signature"))
    as (H1 & H2 & _ & _ & H5 & _);
    [reflexivity | discriminate | reflexivity |].
  split; [exact H1|]. split; [exact H2|].
  exact (proj1 (H5 eq_refl)).
Defined.


Lemma protect_non_bearer_header_witness :
  let req := Fixture.get_with_header "Basic dXNlcjpwdw==" in
  let w := Fixture.world [Fixture.alice] in
  Js.truthy_str (cookies_token req) = false
  /\ Js.startsWith "Basic dXNlcjpwdw==" "Bearer" = false
  /\ protect Fixture.verify Fixture.production 0 req w
     = (w, Throw (AppError "You are not logged in" 401))
  /\ new_events w (fst (protect Fixture.verify Fixture.production 0 req w)) = [].
Proof.
  intros req w.
  split; [reflexivity|]. split; [reflexivity|].
  destruct (protect_non_bearer_header Fixture.verify Fixture.production 0 req w
              "Basic dXNlcjpwdw==") as (H1 & H2 & _);
    [reflexivity | reflexivity | reflexivity |].
  split; [exact H1 | exact H2].
Defined.

Lemma logout_does_not_revoke_witness :
  let req := Fixture.get_with_cookie Fixture.alice_token in
  let w := Fixture.world [Fixture.alice] in
  let after := fst (route_logout Fixture.verify Fixture.production 2000 req w) in
  users after = users w
  /\ snd (route_me Fixture.verify Fixture.production 3000 req after)
     = mkResponse 200 None (UserBody "success" (without_password Fixture.alice)).
Proof.
  intros req w after.
  destruct (logout_does_not_revoke Fixture.verify Fixture.production 2000 3000
              req req w Fixture.alice_token (mkPayload "u0" 0 604800)
              Fixture.alice)
    as (H1 & _ & _ & H4);
    [reflexivity | discriminate | reflexivity | reflexivity | reflexivity |].
  split; [exact H1 | exact H4].
Defined.

(** ** Operations on concrete inputs *)

Lemma login_failures_indistinguishable_witness :
  let w := Fixture.world [Fixture.alice] in
  find (by_email "nobody@example.com") (users w) = None
  /\ password Fixture.alice = Some (Fixture.hash "Secur3Pass!")
  /\ Fixture.compare "wrong" (Fixture.hash "Secur3Pass!") = false
  /\ snd (route_login Fixture.sign Fixture.timespan Fixture.compare
            Fixture.production 0 "nobody@example.com" "whatever" w)
     = snd (route_login Fixture.sign Fixture.timespan Fixture.compare
              Fixture.production 0 "alice@example.com" "wrong" w).
Proof.
  intros w.
  split; [reflexivity|]. split; [reflexivity|]. split; [reflexivity|].
  refine (proj1 (login_failures_indistinguishable Fixture.sign Fixture.timespan
                   Fixture.compare Fixture.production 0 "nobody@example.com"
                   "whatever" "alice@example.com" "wrong" w w Fixture.alice
                   (Fixture.hash "Secur3Pass!") _ _ _ _));
    reflexivity.
Defined.

(** Registering a second user with Alice's email, in production: the answer
    is 400, not 409. *)
Lemma duplicate_email_gets_400 :
  existsb (by_email "alice@example.com") [Fixture.alice] = true
  /\ route_register Fixture.sign Fixture.timespan Fixture.hash Fixture.new_id Fixture.production 0
       "bob" "alice@example.com" "hunter22" (Fixture.world [Fixture.alice])
     = (mkWorld [Fixture.alice] [EvCreate "bob" "alice@example.com"],
        mkResponse 400 None
          (ErrorBody "fail"
             (message (handleDuplicateFieldsDB
                         (MongoDuplicateKey "email" "alice@example.com")))))
  /\ 400 <> 409.
Proof. vm_compute. repeat split; discriminate. Qed.

Lemma duplicate_registration_rejected_witness :
  let run := route_register Fixture.sign Fixture.timespan Fixture.hash Fixture.new_id
               Fixture.production 0 "bob" "alice@example.com" "hunter22"
               (Fixture.world [Fixture.alice]) in
  users (fst run) = [Fixture.alice] /\ res_cookie (snd run) = None.
Proof.
  intros run.
  destruct (duplicate_registration_rejected Fixture.sign Fixture.timespan Fixture.hash
              Fixture.new_id Fixture.production 0 "bob" "alice@example.com"
              "hunter22" (Fixture.world [Fixture.alice]))
    as (H1 & H2 & _);
    [right; reflexivity |].
  split; [exact H1 | exact H2].
Defined.

(** With [JWT_EXPIRES_IN=24h] and [JWT_COOKIE_EXPIRES_IN=7] the cookie set
    at time 0 expires six days after the token it carries: one day and a
    second after it was issued the token is expired, the cookie is not. *)
Lemma cookie_outlives_token :
  snd (createSendToken Fixture.sign Fixture.timespan Fixture.short_token 0 Fixture.alice 200
         (Fixture.world [Fixture.alice]))
  = Return (mkResponse 200
              (Some (mkCookie "token" "u0.0.86400.s3cret" (Some 604800000)
                       true true "none"))
              (TokenBody "success" "u0.0.86400.s3cret" Fixture.alice))
  /\ Fixture.verify "u0.0.86400.s3cret" "s3cret" 0
     = Decoded (mkPayload "u0" 0 86400)
  /\ Fixture.verify "u0.0.86400.s3cret" "s3cret" 86401000 = Expired
  /\ (86401000 <? 604800000)%Z = true
  /\ 604800000 <> 1000 * 86400.
Proof. vm_compute. repeat split; discriminate. Qed.

Lemma cookie_expiry_matches_token_witness :
  let env := mkEnv (Some "production") "s3cret" (Some "7 days") (Some 7)
               (Some "https://app.example.com") in
  let reads := fun (span : string) (issued : Z) =>
                 if span =? "7 days" then Some (issued + 7 * 86400)
                 else Fixture.timespan span issued in
  reads (Js.or_str (JWT_EXPIRES_IN env) "7d") (1234 / 1000)
  = Some (1234 / 1000 + 7 * 86400)
  /\ valid_date (1234 + 7 * 86400000) = true
  /\ exists p e,
      createSendToken Fixture.sign reads env 1234 Fixture.alice 200
        (Fixture.world [Fixture.alice])
      = (Fixture.world [Fixture.alice],
         Return
           (mkResponse 200
              (Some (mkCookie "token" (Fixture.sign p "s3cret") (Some e)
                       true true "none"))
              (TokenBody "success" (Fixture.sign p "s3cret") Fixture.alice)))
      /\ 0 <= e - 1000 * exp p < 1000.
Proof.
  intros env reads. split; [reflexivity|]. split; [reflexivity|].
  destruct (cookie_expiry_matches_token Fixture.sign reads env 1234
              Fixture.alice 200 (Fixture.world [Fixture.alice]) 7)
    as (p & e & H1 & _ & _ & _ & _ & H6);
    [reflexivity | reflexivity | reflexivity |].
  exists p, e. split; [exact H1 | exact H6].
Defined.

(* ================================================================== *)
(** * Further properties of the guard *)

Lemma skipn_log_app (l evs : list Event) :
  skipn (List.length l) (l ++ evs)%list = evs.
Proof. induction l as [|e l IH]; simpl; auto. Qed.

Lemma errorHandler_no_cookie (env : Env) (err : JsError) :
  res_cookie (snd (errorHandler env err)) = None.
Proof.
  unfold errorHandler, sendErrorDev, sendErrorProd.
  destruct (is_development env); cbn [snd]; [reflexivity|].
  destruct (isOperational _); reflexivity.
Qed.

Section GuardMore.

Variable jwt_verify : string -> string -> Z -> VerifyResult.

(** Every run of [protect], by cases on what the request carries, what the
    token library says and what the collection holds. *)
Lemma protect_spec (env : Env) (now : Z) (req : Request) (w : World) :
  protect jwt_verify env now req w
  = match extractToken req with
    | None => (w, Throw (AppError "You are not logged in" 401))
    | Some tok =>
        if tok =? "" then (w, Throw (AppError "You are not logged in" 401))
        else
          let w1 := mkWorld (users w) (log w ++ [EvVerify tok])%list in
          match jwt_verify tok (JWT_SECRET env) now with
          | Invalid msg => (w1, Throw (JsonWebTokenError msg))
          | Expired => (w1, Throw TokenExpiredError)
          | Decoded p =>
              let w2 := mkWorld (users w)
                          ((log w ++ [EvVerify tok]) ++ [EvFindById (id p)])%list in
              match find (by_id (id p)) (users w) with
              | None => (w2, Throw (AppError "User no longer exists" 401))
              | Some u =>
                  if isActive u then (w2, Return (without_password u))
                  else (w2, Throw (AppError "User account is deactivated" 401))
              end
          end
    end.
Proof.
  run_protect.
  destruct (extractToken req) as [tok|]; simpl; [|reflexivity].
  destruct (tok =? ""); simpl; [reflexivity|].
  destruct (jwt_verify tok (JWT_SECRET env) now) as [p|msg|]; simpl; try reflexivity.
  destruct (find (by_id (id p)) (users w)) as [u|]; simpl; [|reflexivity].
  destruct (isActive u); reflexivity.
Qed.

(** X1: when [protect] lets a request through, the request carried a
    non-empty token, the token library decoded it, the collection holds a
    user with the decoded id whose active flag is set, and the user attached
    to the request is that user without the password hash. *)
Theorem protect_accepts_only_verified_active (env : Env) (now : Z)
        (req : Request) (w w' : World) (attached : User) :
  protect jwt_verify env now req w = (w', Return attached) ->
  exists tok p u,
    extractToken req = Some tok /\ tok <> ""
    /\ jwt_verify tok (JWT_SECRET env) now = Decoded p
    /\ find (by_id (id p)) (users w) = Some u
    /\ _id u = id p
    /\ isActive u = true
    /\ attached = without_password u
    /\ password attached = None.
Proof.
  rewrite protect_spec.
  destruct (extractToken req) as [tok|]; [|discriminate].
  destruct (String.eqb_spec tok "") as [|Hne]; [discriminate|].
  destruct (jwt_verify tok (JWT_SECRET env) now) as [p|msg|] eqn:Hv;
    try discriminate.
  cbv zeta.
  destruct (find (by_id (id p)) (users w)) as [u|] eqn:Hf; [|discriminate].
  destruct (isActive u) eqn:Ha; [|discriminate].
  intros H; inversion H; subst.
  exists tok, p, u. repeat split; auto.
  now apply find_by_id_id with (us := users w).
Qed.

(** X2: [protect] never writes to the user collection, and in one run it
    calls the token library at most once and reads the collection at most
    once, the read coming after a successful verification of the extracted
    token and asking for the decoded id. *)
Theorem protect_calls (env : Env) (now : Z) (req : Request) (w : World) :
  let after := fst (protect jwt_verify env now req w) in
  users after = users w
  /\ exists evs,
      log after = (log w ++ evs)%list
      /\ (evs = []
          \/ exists tok,
              extractToken req = Some tok
              /\ (evs = [EvVerify tok]
                  \/ exists p,
                      jwt_verify tok (JWT_SECRET env) now = Decoded p
                      /\ evs = [EvVerify tok; EvFindById (id p)])).
Proof.
  intros after. split; [apply protect_users|].
  unfold after. rewrite protect_spec.
  destruct (extractToken req) as [tok|];
    [|exists []; split; [now rewrite app_nil_r | now left]].
  destruct (tok =? "");
    [exists []; split; [now rewrite app_nil_r | now left]|].
  destruct (jwt_verify tok (JWT_SECRET env) now) as [p|msg|] eqn:Hv; cbv zeta.
  - exists [EvVerify tok; EvFindById (id p)]. split.
    + destruct (find _ _) as [u|]; [destruct (isActive u)|];
        simpl; now rewrite <- app_assoc.
    + right. exists tok. split; [reflexivity|]. right. now exists p.
  - exists [EvVerify tok]. split; [reflexivity|].
    right. exists tok. auto.
  - exists [EvVerify tok]. split; [reflexivity|].
    right. exists tok. auto.
Qed.

(** X3: a token that verifies but whose user is no longer in the collection
    is rejected with 401, "User no longer exists", in every mode, after one
    verification and one read. *)
Theorem protect_missing_user (env : Env) (now : Z) (req : Request) (w : World)
        (tok : string) (p : JwtPayload) :
  extractToken req = Some tok -> tok <> "" ->
  jwt_verify tok (JWT_SECRET env) now = Decoded p ->
  find (by_id (id p)) (users w) = None ->
  snd (protect jwt_verify env now req w)
  = Throw (AppError "User no longer exists" 401)
  /\ new_events w (fst (protect jwt_verify env now req w))
     = [EvVerify tok; EvFindById (id p)]
  /\ res_status (snd (route_me jwt_verify env now req w)) = 401
  /\ body_message (res_body (snd (route_me jwt_verify env now req w)))
     = Some "User no longer exists".
Proof.
  intros He Ht Hv Hf.
  assert (Hp : protect jwt_verify env now req w
               = (mkWorld (users w)
                    ((log w ++ [EvVerify tok]) ++ [EvFindById (id p)])%list,
                  Throw (AppError "User no longer exists" 401))).
  { rewrite protect_spec, He. destruct (String.eqb_spec tok ""); [contradiction|].
    rewrite Hv. cbv zeta. now rewrite Hf. }
  destruct (errorHandler_AppError env "User no longer exists" 401)
    as (Hs & Hm & _); [lia|].
  rewrite (route_me_throw _ _ _ _ _ _ _ Hp), Hp. cbn [fst snd].
  repeat split; auto.
  unfold new_events. cbn [log]. rewrite <- app_assoc. apply skipn_log_app.
Qed.


(** *** Shapes of the [Authorization] header *)

Lemma string_app_assoc (a b c : string) : (a ++ b) ++ c = a ++ (b ++ c).
Proof. induction a as [|x a IH]; simpl; [reflexivity | now rewrite IH]. Qed.

Lemma has_space_app (a b : string) :
  has_space (a ++ b) = has_space a || has_space b.
Proof.
  induction a as [|x a IH]; simpl; [reflexivity|].
  now rewrite IH, Bool.orb_assoc.
Qed.

Lemma split_acc_until_space (a acc b : string) :
  has_space a = false ->
  Js.split_acc " " acc (a ++ String " " b)
  = (acc ++ a) :: Js.split_acc " " "" b.
Proof.
  revert acc. induction a as [|c a IH]; intros acc Hs; simpl in *.
  - f_equal. induction acc as [|x r IHr]; simpl; [reflexivity | now rewrite <- IHr].
  - apply Bool.orb_false_iff in Hs as [Hc Ha].
    rewrite Hc, (IH _ Ha), append_snoc. reflexivity.
Qed.

Lemma split_scheme (x rest : string) :
  has_space x = false ->
  Js.split " " ("Bearer" ++ x ++ String " " rest)
  = ("Bearer" ++ x) :: Js.split_acc " " "" rest.
Proof.
  intros Hx. unfold Js.split.
  rewrite <- string_app_assoc.
  rewrite split_acc_until_space; [reflexivity|].
  rewrite has_space_app. exact Hx.
Qed.

Lemma header_is_bearer (x : string) :
  Js.truthy_str (Some ("Bearer" ++ x)) = true
  /\ Js.startsWith ("Bearer" ++ x) "Bearer" = true.
Proof. split; [reflexivity | destruct x; reflexivity]. Qed.

Lemma extract_from_header (req : Request) (x : string) :
  Js.truthy_str (cookies_token req) = false ->
  authorization req = Some ("Bearer" ++ x) ->
  extractToken req = Js.index (Js.split " " ("Bearer" ++ x)) 1.
Proof.
  intros Hc Ha. unfold extractToken. rewrite Hc, Ha.
  cbn [Js.str_or_undefined].
  destruct (header_is_bearer x) as [-> ->]. reflexivity.
Qed.

(** X5: without a cookie, the header is accepted on its first six
    characters alone, and the token is what stands between the first and
    the second space: a scheme such as [BearerX] is taken for [Bearer], and
    anything after a second space is ignored. *)
Theorem bearer_scheme_is_a_prefix (req : Request) (x t rest : string) :
  Js.truthy_str (cookies_token req) = false ->
  has_space x = false -> has_space t = false ->
  rest = "" \/ (exists r, rest = String " " r) ->
  authorization req = Some ("Bearer" ++ x ++ " " ++ t ++ rest) ->
  extractToken req = Some t.
Proof.
  intros Hc Hx Ht Hrest Ha.
  rewrite (extract_from_header req _ Hc Ha).
  change (x ++ " " ++ t ++ rest) with (x ++ String " " (t ++ rest)).
  rewrite (split_scheme x _ Hx).
  destruct Hrest as [->|[r ->]].
  - replace (t ++ "") with t
      by (clear; induction t as [|c t IH]; simpl; [reflexivity | now rewrite <- IH]).
    rewrite (split_acc_no_space t "" Ht). reflexivity.
  - rewrite (split_acc_until_space t "" r Ht). reflexivity.
Qed.

(** X6: without a cookie, a header that starts with [Bearer] but has
    nothing between its first and second space (no space at all, a space at
    its very end, or two spaces in a row) carries no token: the request is
    rejected with 401, "You are not logged in", before the token library or
    the collection is called. *)
Theorem bearer_without_token (env : Env) (now : Z) (req : Request) (w : World)
        (x : string) :
  Js.truthy_str (cookies_token req) = false ->
  has_space x = false ->
  authorization req = Some ("Bearer" ++ x)
  \/ authorization req = Some ("Bearer" ++ x ++ " ")
  \/ (exists rest, authorization req = Some ("Bearer" ++ x ++ "  " ++ rest)) ->
  protect jwt_verify env now req w
  = (w, Throw (AppError "You are not logged in" 401))
  /\ res_status (snd (route_me jwt_verify env now req w)) = 401.
Proof.
  intros Hc Hx Ha.
  assert (He : Js.truthy_str (extractToken req) = false).
  { destruct Ha as [Ha|[Ha|[rest Ha]]];
      rewrite (extract_from_header req _ Hc Ha).
    - unfold Js.split.
      rewrite (split_acc_no_space ("Bearer" ++ x) "");
        [reflexivity | now rewrite has_space_app].
    - change (x ++ " ") with (x ++ String " " "").
      rewrite (split_scheme x _ Hx). reflexivity.
    - change (x ++ "  " ++ rest) with (x ++ String " " (String " " rest)).
      rewrite (split_scheme x _ Hx). reflexivity. }
  split; [now apply protect_no_token|].
  now apply route_me_not_logged_in.
Qed.

End GuardMore.

(* ================================================================== *)
(** * Further properties of the central handler *)

Lemma sendErrorProd_400 (m : string) :
  sendErrorProd (AppError m 400) = mkResponse 400 None (ErrorBody "fail" m).
Proof. reflexivity. Qed.

Lemma sendErrorProd_401 (m : string) :
  sendErrorProd (AppError m 401) = mkResponse 401 None (ErrorBody "fail" m).
Proof. reflexivity. Qed.

Lemma translate_unrecognised (err : JsError) :
  recognised err = false -> translate err = err.
Proof.
  unfold recognised, translate. intros H.
  repeat (apply Bool.orb_false_iff in H; destruct H as [H ?]).
  destruct (code err) as [c|];
    repeat match goal with
           | Hx : _ = false |- _ => rewrite Hx; clear Hx
           end; reflexivity.
Qed.

Lemma translate_recognised (err : JsError) :
  recognised err = true ->
  exists m, translate err = AppError m 400 \/ translate err = AppError m 401.
Proof.
  unfold recognised, translate. intros H.
  destruct (name err =? "TokenExpiredError") eqn:H5;
    [eexists; right; reflexivity|].
  destruct (name err =? "JsonWebTokenError") eqn:H4;
    [eexists; right; reflexivity|].
  destruct (name err =? "ValidationError") eqn:H3;
    [eexists; left; reflexivity|].
  destruct (code err) as [c|].
  - destruct (c =? 11000)%Z eqn:H2; [eexists; left; reflexivity|].
    destruct (name err =? "CastError") eqn:H1; [eexists; left; reflexivity|].
    discriminate.
  - destruct (name err =? "CastError") eqn:H1; [eexists; left; reflexivity|].
    discriminate.
Qed.

Lemma recognised_withDefaults (err : JsError) :
  recognised (withDefaults err) = recognised err.
Proof. reflexivity. Qed.

(** X7: outside development mode, an error that is not operational and
    that is none of the library errors the handler recognises is answered
    with 500 and the fixed message "Something went wrong!", whatever its
    own message or status code. *)
Theorem errorHandler_hides_unexpected (env : Env) (err : JsError) :
  is_development env = false ->
  isOperational err = false ->
  recognised err = false ->
  snd (errorHandler env err)
  = mkResponse 500 None (ErrorBody "error" "Something went wrong!").
Proof.
  intros Hd Hop Hr. unfold errorHandler. rewrite Hd. cbn [snd].
  rewrite translate_unrecognised by (now rewrite recognised_withDefaults).
  unfold sendErrorProd. cbn [isOperational withDefaults]. now rewrite Hop.
Qed.

(** X8: outside development mode, every error of the libraries that the
    handler recognises (cast error, duplicate key, schema validation,
    invalid or expired token) and that carries the fields its helper reads
    is answered with 400 or 401 and status ['fail'], also when it matches
    several of the tests and whatever status code it carries; in
    development mode the same error, carrying no status code, is answered
    with 500. *)
Theorem errorHandler_recognised (env : Env) (err : JsError) :
  recognised err = true ->
  (code err = Some 11000 -> keyPattern err <> [] /\ keyValue err <> []) ->
  (name err = "ValidationError" -> errors err <> []) ->
  (is_development env = false ->
     exists m,
       (res_status (snd (errorHandler env err)) = 400
        \/ res_status (snd (errorHandler env err)) = 401)
       /\ res_body (snd (errorHandler env err)) = ErrorBody "fail" m)
  /\ (is_development env = true -> statusCode err = None ->
      res_status (snd (errorHandler env err)) = 500).
Proof.
  intros Hr _ _. split.
  - intros Hd. unfold errorHandler. rewrite Hd. cbn [snd].
    destruct (translate_recognised (withDefaults err)) as [m [Ht|Ht]];
      [now rewrite recognised_withDefaults | |];
      rewrite Ht; exists m.
    + rewrite sendErrorProd_400. split; [now left | reflexivity].
    + rewrite sendErrorProd_401. split; [now right | reflexivity].
  - intros Hd Hs. unfold errorHandler. rewrite Hd. cbn. now rewrite Hs.
Qed.


(* ================================================================== *)
(** * Further properties of logout and of the transport of the token *)

Section LogoutMore.

Variable jwt_verify : string -> string -> Z -> VerifyResult.

Lemma route_logout_refused (env : Env) (now : Z) (req : Request) (w w' : World)
      (e : JsError) :
  protect jwt_verify env now req w = (w', Throw e) ->
  route_logout jwt_verify env now req w = (w', snd (errorHandler env e)).
Proof.
  intros H. unfold route_logout, asyncHandler, bind. now rewrite H.
Qed.

(** X10: [POST /logout] overwrites the cookie exactly when the guard let
    the request through: a logout the guard refuses is answered by the
    central handler and sets no cookie, so it does not clear a session. *)
Theorem logout_sets_cookie_iff_authenticated (env : Env) (now : Z)
        (req : Request) (w : World) :
  (exists u, snd (protect jwt_verify env now req w) = Return u)
  <-> res_cookie (snd (route_logout jwt_verify env now req w)) <> None.
Proof.
  destruct (protect jwt_verify env now req w) as [w' [u|e]] eqn:Hp.
  - split; [|intros _; exists u; reflexivity]. intros _.
    rewrite (route_logout_accepted jwt_verify env now req w u)
      by now rewrite Hp.
    discriminate.
  - rewrite (route_logout_refused _ _ _ _ _ _ Hp). cbn [snd].
    rewrite errorHandler_no_cookie. split.
    + intros [u Hu]. discriminate.
    + intros H. contradiction.
Qed.

(** X11: while the browser still sends the sentinel cookie that logout
    set, the guard judges the request on that cookie, also when the request
    carries a valid token in its [Authorization] header: the token library
    is asked about ["none"] and, as it refuses it, the request is rejected at
    the verify step. *)
Theorem sentinel_cookie_shadows_header (env : Env) (t1 t2 : Z)
        (req1 req2 : Request) (w w2 : World) (u1 : User) (e : JsError) :
  snd (protect jwt_verify env t1 req1 w) = Return u1 ->
  cookies_token req2
  = option_map cookie_value
      (res_cookie (snd (route_logout jwt_verify env t1 req1 w))) ->
  verify_error (jwt_verify "none" (JWT_SECRET env) t2) = Some e ->
  extractToken req2 = Some "none"
  /\ snd (protect jwt_verify env t2 req2 w2) = Throw e
  /\ new_events w2 (fst (protect jwt_verify env t2 req2 w2)) = [EvVerify "none"].
Proof.
  intros Hacc Hck Hv.
  rewrite (route_logout_accepted jwt_verify env t1 req1 w u1 Hacc) in Hck.
  cbn in Hck.
  assert (He : extractToken req2 = Some "none").
  { rewrite extract_cookie; [exact Hck | now rewrite Hck]. }
  split; [exact He|].
  rewrite (protect_verify_fails jwt_verify env t2 req2 w2 "none" e He
             ltac:(discriminate) Hv).
  cbn [fst snd]. split; [reflexivity | apply new_events_app].
Qed.

End LogoutMore.


(* ================================================================== *)
(** * Further properties of the origin check *)

Lemma prefix_app (a s : string) : String.prefix a (a ++ s) = true.
Proof.
  induction a as [|c a IH]; simpl.
  - destruct s; reflexivity.
  - destruct (ascii_dec c c) as [_|Hn]; [exact IH | contradiction].
Qed.

(** X13: the origin check answers by itself only with the 403 "CSRF
    validation failed", only in production, only for a method other than
    [GET], [HEAD] and [OPTIONS], and only because a header that is present
    does not fit: an [Origin] other than the configured one, or a [Referer]
    that does not start with it. *)
Theorem csrf_rejects_only_if (env : Env) (req : Request) (r : Response) :
  csrfProtection env req = Responds r ->
  r = csrf_rejection
  /\ is_production env = true
  /\ Js.includes ["GET"; "HEAD"; "OPTIONS"] (method req) = false
  /\ ((Js.truthy_str (origin req) = true
       /\ Js.strict_eq (origin req) (CORS_ORIGIN env) = false)
      \/ (Js.truthy_str (referer req) = true
          /\ Js.startsWith (Js.str_or_undefined (referer req))
               (Js.str_or_undefined (CORS_ORIGIN env)) = false)).
Proof.
  unfold csrfProtection.
  destruct (is_production env); [|discriminate].
  destruct (Js.includes _ _); [discriminate|]. cbn [negb orb].
  destruct (Js.truthy_str (origin req)) eqn:Ho;
    destruct (Js.strict_eq (origin req) (CORS_ORIGIN env)) eqn:Heq;
    destruct (Js.truthy_str (referer req)) eqn:Hr;
    destruct (Js.startsWith _ _) eqn:Hs;
    cbn [negb andb]; intros H; inversion H; auto 10; discriminate.
Qed.

(** X14: in production, a state-changing request whose [Referer] merely
    starts with the configured origin passes the check (its [Origin] being
    absent or the configured one), whatever follows the prefix: a host name
    that continues the configured one is let through. *)
Theorem csrf_referer_prefix_passes (env : Env) (req : Request)
        (allowed suffix : string) :
  CORS_ORIGIN env = Some allowed ->
  origin req = None \/ origin req = Some allowed ->
  referer req = Some (allowed ++ suffix) ->
  csrfProtection env req = Next.
Proof.
  intros Ha Ho Hr. unfold csrfProtection.
  destruct (negb (is_production env) || _); [reflexivity|].
  assert (H1 : Js.truthy_str (origin req)
               && negb (Js.strict_eq (origin req) (CORS_ORIGIN env)) = false).
  { destruct Ho as [-> | ->]; [reflexivity|].
    rewrite Ha. cbn [Js.strict_eq]. rewrite String.eqb_refl.
    apply Bool.andb_false_r. }
  rewrite H1, Hr, Ha. cbn [Js.str_or_undefined].
  unfold Js.startsWith. rewrite prefix_app.
  cbn [negb]. rewrite Bool.andb_false_r. reflexivity.
Qed.

(** X15: when [CORS_ORIGIN] is not set, the cross-origin settings admit
    [http://localhost:3000], but in production the origin check rejects
    every state-changing request that names an origin, that one included:
    the check has no default of its own. *)
Theorem csrf_unset_origin_rejects (env : Env) (req : Request) (o : string) :
  CORS_ORIGIN env = None ->
  is_production env = true ->
  Js.includes ["GET"; "HEAD"; "OPTIONS"] (method req) = false ->
  origin req = Some o -> o <> "" ->
  cors_origin (corsOptions env) = "http://localhost:3000"
  /\ csrfProtection env req = Responds csrf_rejection.
Proof.
  intros Hc Hp Hm Ho Hne. split.
  - unfold corsOptions. now rewrite Hc.
  - unfold csrfProtection.
    rewrite Hp, Hm, Ho, Hc, (truthy_nonempty o Hne). reflexivity.
Qed.

(* ================================================================== *)
(** * Properties of the request validation *)

Lemma ltrim_blank (ws : string) : blank ws = true -> Validator.ltrim ws = "".
Proof.
  unfold blank. induction ws as [|c ws IH]; simpl; [reflexivity|].
  intros H. apply Bool.andb_true_iff in H as [Hc Hws]. now rewrite Hc, IH.
Qed.

Lemma ltrim_blank_app (ws s : string) :
  blank ws = true -> Validator.ltrim (ws ++ s) = Validator.ltrim s.
Proof.
  unfold blank. induction ws as [|c ws IH]; simpl; [reflexivity|].
  intros H. apply Bool.andb_true_iff in H as [Hc Hws]. now rewrite Hc, IH.
Qed.

Lemma rtrim_blank (ws : string) : blank ws = true -> Validator.rtrim ws = "".
Proof.
  unfold blank. induction ws as [|c ws IH]; simpl; [reflexivity|].
  intros H. apply Bool.andb_true_iff in H as [Hc Hws]. now rewrite IH, Hc.
Qed.

Lemma rtrim_app_blank (s ws : string) :
  blank ws = true -> Validator.rtrim (s ++ ws) = Validator.rtrim s.
Proof.
  intros H. induction s as [|c s IH]; simpl.
  - now apply rtrim_blank.
  - now rewrite IH.
Qed.

Lemma trim_app_blank (s ws : string) :
  blank ws = true -> Validator.trim (s ++ ws) = Validator.trim s.
Proof.
  intros H. unfold Validator.trim.
  induction s as [|c s IH]; simpl.
  - now rewrite (ltrim_blank ws H).
  - destruct (Validator.is_space c); [exact IH|].
    change (String c (s ++ ws)) with (String c s ++ ws).
    now apply rtrim_app_blank.
Qed.

Lemma trim_padding (a s b : string) :
  blank a = true -> blank b = true ->
  Validator.trim (a ++ s ++ b) = Validator.trim s.
Proof.
  intros Ha Hb. unfold Validator.trim at 1.
  rewrite (ltrim_blank_app a _ Ha).
  exact (trim_app_blank s b Hb).
Qed.

Lemma check_nil (ok : bool) (path msg v : string) :
  check ok path msg v = [] <-> ok = true.
Proof. destruct ok; simpl; split; intros; try reflexivity; discriminate. Qed.

Section ValidationProps.

Variable isEmail : string -> bool.
Variable normalizeEmail : string -> string.

(** X16: white space around the username and around the email changes
    neither the errors [registerValidator] reports nor the body it hands
    on, and the password is handed on exactly as it was sent. *)
Theorem registerValidator_ignores_padding (u e p a1 a2 b1 b2 : string) :
  blank a1 = true -> blank a2 = true -> blank b1 = true -> blank b2 = true ->
  registerValidator isEmail normalizeEmail
    (mkRegisterBody (a1 ++ u ++ a2) (b1 ++ e ++ b2) p)
  = registerValidator isEmail normalizeEmail (mkRegisterBody u e p)
  /\ rb_password (snd (registerValidator isEmail normalizeEmail
                         (mkRegisterBody (a1 ++ u ++ a2) (b1 ++ e ++ b2) p)))
     = p.
Proof.
  intros H1 H2 H3 H4. unfold registerValidator.
  cbn [rb_username rb_email rb_password snd].
  rewrite (trim_padding a1 u a2 H1 H2), (trim_padding b1 e b2 H3 H4).
  split; reflexivity.
Qed.

(** X17: [registerValidator] reports no error exactly when the trimmed
    username has 3 to 30 characters, all of them letters, digits or
    underscores, the trimmed email is one for [isEmail], and the password,
    untrimmed, has at least 6 characters. *)
Theorem registerValidator_accepts_iff (b : RegisterBody) :
  fst (registerValidator isEmail normalizeEmail b) = []
  <-> ((3 <= String.length (Validator.trim (rb_username b)) <= 30)%nat
       /\ Validator.all_chars Validator.is_word_char
            (Validator.trim (rb_username b)) = true
       /\ isEmail (Validator.trim (rb_email b)) = true
       /\ (6 <= String.length (rb_password b))%nat).
Proof.
  unfold registerValidator. cbn [fst].
  set (u := Validator.trim (rb_username b)).
  set (e := Validator.trim (rb_email b)).
  set (p := rb_password b).
  unfold Validator.isLength, Validator.matches_word.
  split.
  - intros H.
    apply app_eq_nil in H as [H1 H]. apply app_eq_nil in H as [H2 H].
    apply app_eq_nil in H as [H3 H4].
    apply check_nil in H1, H2, H3, H4.
    apply Bool.andb_true_iff in H1 as [H1a H1b].
    apply Bool.andb_true_iff in H2 as [_ H2].
    rewrite Bool.andb_true_r in H4.
    apply Nat.leb_le in H1a, H1b, H4. auto.
  - intros ((Hlo & Hhi) & Hw & He & Hp).
    assert (Hne : (u =? "") = false).
    { destruct u; [simpl in Hlo; lia | reflexivity]. }
    apply Nat.leb_le in Hlo, Hhi, Hp.
    rewrite Hlo, Hhi, Hne, Hw, He, Hp. reflexivity.
Qed.

(** X18: the username chain does not stop at its first failure: a
    username that breaks both rules is reported twice, the length message
    first, both entries carrying the trimmed value. *)
Theorem registerValidator_reports_both (b : RegisterBody) :
  let u := Validator.trim (rb_username b) in
  Validator.isLength 3 (Some 30%nat) u = false ->
  Validator.matches_word u = false ->
  exists rest,
    fst (registerValidator isEmail normalizeEmail b)
    = (mkFieldError "username"
         "Username must be between 3 and 30 characters" u
       :: mkFieldError "username"
            "Username can only contain letters, numbers, and underscores" u
       :: rest)%list.
Proof.
  intros u H1 H2. unfold registerValidator. cbn [fst]. fold u.
  rewrite H1, H2. cbn [check app]. eexists. reflexivity.
Qed.

Variable jwt_sign : JwtPayload -> string -> string.
Variable jwt_timespan : string -> Z -> option Z.
Variable bcrypt_compare : string -> string -> bool.

(** X19: [POST /login] with an email [isEmail] refuses, or with an empty
    password, is answered 400 by [validate] and the controller does not
    run: the user collection is not read.  Otherwise the controller runs on
    the trimmed email and on the password as sent. *)
Theorem post_login_validation (env : Env) (now : Z) (b : LoginBody) (w : World) :
  let e := Validator.trim (lb_email b) in
  let p := lb_password b in
  (isEmail e = false \/ p = "" ->
     fst (post_login isEmail jwt_sign jwt_timespan bcrypt_compare env now b w) = w
     /\ reply_status (snd (post_login isEmail jwt_sign jwt_timespan bcrypt_compare env now b w))
        = 400)
  /\ (isEmail e = true -> p <> "" ->
      post_login isEmail jwt_sign jwt_timespan bcrypt_compare env now b w
      = (fst (route_login jwt_sign jwt_timespan bcrypt_compare env now e p w),
         Handled (snd (route_login jwt_sign jwt_timespan bcrypt_compare env now e p w)))).
Proof.
  intros e p. unfold post_login, loginValidator, Validator.notEmpty.
  fold e. fold p. cbn [lb_email lb_password].
  split.
  - intros [He|Hp].
    + rewrite He. cbn. split; reflexivity.
    + rewrite Hp. destruct (isEmail e); cbn; split; reflexivity.
  - intros He Hp. rewrite He.
    destruct (String.eqb_spec p "") as [|_]; [contradiction|].
    cbn [negb check app validate].
    destruct (route_login jwt_sign jwt_timespan bcrypt_compare env now e p w). reflexivity.
Qed.

End ValidationProps.

(* ================================================================== *)
(** * The client's interceptor on the backend's answers *)

Lemma interceptor_401 (href : string) (r : Response) :
  res_status r = 401 ->
  interceptor href (settle r) = ("/login", Rejected (Some r)).
Proof. intros H. unfold settle, interceptor. rewrite H. cbn. now rewrite H. Qed.

Lemma interceptor_other (href : string) (r : Response) :
  res_status r = 500 ->
  interceptor href (settle r) = (href, Rejected (Some r)).
Proof. intros H. unfold settle, interceptor. rewrite H. cbn. now rewrite H. Qed.

Section Client.

Variable jwt_verify : string -> string -> Z -> VerifyResult.

(** X21: on [GET /me], when the guard refuses with one of its own 401
    errors the client's interceptor sends the browser to [/login], in every
    mode; when it refuses because the token library refused the token, the
    interceptor sends the browser to [/login] outside development mode, and
    in development mode, where the answer is 500, nowhere.  The call is
    rejected in all cases. *)
Theorem client_me_redirect (env : Env) (now : Z) (req : Request) (w : World)
        (href : string) :
  let r := snd (route_me jwt_verify env now req w) in
  (forall m, snd (protect jwt_verify env now req w) = Throw (AppError m 401) ->
        interceptor href (settle r) = ("/login", Rejected (Some r)))
  /\ (forall tok e,
        extractToken req = Some tok -> tok <> "" ->
        verify_error (jwt_verify tok (JWT_SECRET env) now) = Some e ->
        (is_development env = false ->
           interceptor href (settle r) = ("/login", Rejected (Some r)))
        /\ (is_development env = true ->
            interceptor href (settle r) = (href, Rejected (Some r)))).
Proof.
  intros r. split.
  - intros m Hthrow. apply interceptor_401. unfold r.
    destruct (protect jwt_verify env now req w) as [w' o] eqn:Hp.
    cbn in Hthrow. subst o.
    rewrite (route_me_throw _ _ _ _ _ _ _ Hp). cbn [snd].
    now destruct (errorHandler_AppError env m 401) as (Hs & _); [lia|].
  - intros tok e He Ht Hv.
    assert (Hr : r = snd (errorHandler env e)).
    { unfold r.
      now rewrite (route_me_throw _ _ _ _ _ _ _
                     (protect_verify_fails jwt_verify env now req w tok e
                        He Ht Hv)). }
    destruct (errorHandler_verify_error env _ e Hv) as [Hprod Hdev].
    split; intros Hd.
    + apply interceptor_401. rewrite Hr. now destruct (Hprod Hd).
    + apply interceptor_other. rewrite Hr. now apply Hdev.
Qed.

End Client.


(* ================================================================== *)
(** * The status of an [AppError], by the size of its code *)

Lemma of_uint_acc_value (d : Decimal.uint) :
  forall acc : positive,
  exists v, 0 <= v < 10 ^ Z.of_nat (Decimal.nb_digits d)
            /\ Z.pos (Pos.of_uint_acc d acc)
               = Z.pos acc * 10 ^ Z.of_nat (Decimal.nb_digits d) + v.
Proof.
  induction d as [|d IH|d IH|d IH|d IH|d IH|d IH|d IH|d IH|d IH|d IH];
    intros acc;
    [exists 0; simpl; lia| ..];
    cbn [Pos.of_uint_acc Decimal.nb_digits];
    rewrite Nat2Z.inj_succ, Z.pow_succ_r by lia;
    match goal with
    | |- context [Pos.of_uint_acc d ?a] =>
        destruct (IH a) as (v & Hv & ->)
    end;
    set (P := 10 ^ Z.of_nat (Decimal.nb_digits d)) in *;
    [ exists v | exists (1 * P + v) | exists (2 * P + v) | exists (3 * P + v)
    | exists (4 * P + v) | exists (5 * P + v) | exists (6 * P + v)
    | exists (7 * P + v) | exists (8 * P + v) | exists (9 * P + v) ];
    split; lia.
Qed.

Lemma leading_digit_unique (j m k v : Z) :
  1 <= j <= 9 -> 0 <= m -> 0 <= k -> 0 <= v < 10 ^ m ->
  4 * 10 ^ k <= j * 10 ^ m + v < 5 * 10 ^ k -> j = 4.
Proof.
  intros Hj Hm Hk Hv H.
  assert (HA : 0 < 10 ^ m) by (apply Z.pow_pos_nonneg; lia).
  assert (HB : 0 < 10 ^ k) by (apply Z.pow_pos_nonneg; lia).
  destruct (Z.lt_trichotomy m k) as [Hlt|[Heq|Hgt]].
  - assert (Hle : 10 ^ (Z.succ m) <= 10 ^ k) by (apply Z.pow_le_mono_r; lia).
    rewrite Z.pow_succ_r in Hle by lia. nia.
  - subst k. nia.
  - assert (Hle : 10 ^ (Z.succ k) <= 10 ^ m) by (apply Z.pow_le_mono_r; lia).
    rewrite Z.pow_succ_r in Hle by lia. nia.
Qed.

Lemma to_uint_no_leading_zero (p : positive) (d : Decimal.uint) :
  Pos.to_uint p <> Decimal.D0 d.
Proof.
  intros H.
  pose proof (DecimalPos.Unsigned.to_of (Pos.to_uint p)) as Hn.
  rewrite DecimalPos.Unsigned.of_to in Hn. cbn [N.to_uint] in Hn.
  rewrite H in Hn. unfold Decimal.unorm in Hn. cbn [Decimal.nzhead] in Hn.
  destruct (Decimal.nzhead d) eqn:Hd; try discriminate.
  - inversion Hn; subst d. now apply (DecimalPos.Unsigned.to_uint_nonzero p).
  - now apply (DecimalFacts.nzhead_nonzero d u).
Qed.

Lemma pos_value (p : positive) (d : Decimal.uint) (j : positive) :
  Pos.of_uint (Pos.to_uint p) = N.pos (Pos.of_uint_acc d j) ->
  exists v, 0 <= v < 10 ^ Z.of_nat (Decimal.nb_digits d)
            /\ Z.pos p = Z.pos j * 10 ^ Z.of_nat (Decimal.nb_digits d) + v.
Proof.
  rewrite DecimalPos.Unsigned.of_to. intros H. inversion H as [Hp].
  apply of_uint_acc_value.
Qed.

Lemma leading_four (p : positive) :
  (exists d, Pos.to_uint p = Decimal.D4 d)
  <-> exists k, 0 <= k /\ 4 * 10 ^ k <= Z.pos p < 5 * 10 ^ k.
Proof.
  split.
  - intros [d Hd].
    destruct (pos_value p d 4) as (v & Hv & Hp); [now rewrite Hd|].
    exists (Z.of_nat (Decimal.nb_digits d)).
    set (P := 10 ^ Z.of_nat (Decimal.nb_digits d)) in *.
    change (Z.pos 4) with 4 in Hp. lia.
  - intros (k & Hk & Hc).
    destruct (Pos.to_uint p) as [|d|d|d|d|d|d|d|d|d|d] eqn:Hd.
    + now destruct (DecimalPos.Unsigned.to_uint_nonnil p).
    + now destruct (to_uint_no_leading_zero p d).
    + destruct (pos_value p d 1) as (v & Hv & Hp); [now rewrite Hd|].
      rewrite Hp in Hc.
      pose proof (leading_digit_unique 1 (Z.of_nat (Decimal.nb_digits d)) k v
                    ltac:(lia) ltac:(lia) Hk Hv Hc). lia.
    + destruct (pos_value p d 2) as (v & Hv & Hp); [now rewrite Hd|].
      rewrite Hp in Hc.
      pose proof (leading_digit_unique 2 (Z.of_nat (Decimal.nb_digits d)) k v
                    ltac:(lia) ltac:(lia) Hk Hv Hc). lia.
    + destruct (pos_value p d 3) as (v & Hv & Hp); [now rewrite Hd|].
      rewrite Hp in Hc.
      pose proof (leading_digit_unique 3 (Z.of_nat (Decimal.nb_digits d)) k v
                    ltac:(lia) ltac:(lia) Hk Hv Hc). lia.
    + now exists d.
    + destruct (pos_value p d 5) as (v & Hv & Hp); [now rewrite Hd|].
      rewrite Hp in Hc.
      pose proof (leading_digit_unique 5 (Z.of_nat (Decimal.nb_digits d)) k v
                    ltac:(lia) ltac:(lia) Hk Hv Hc). lia.
    + destruct (pos_value p d 6) as (v & Hv & Hp); [now rewrite Hd|].
      rewrite Hp in Hc.
      pose proof (leading_digit_unique 6 (Z.of_nat (Decimal.nb_digits d)) k v
                    ltac:(lia) ltac:(lia) Hk Hv Hc). lia.
    + destruct (pos_value p d 7) as (v & Hv & Hp); [now rewrite Hd|].
      rewrite Hp in Hc.
      pose proof (leading_digit_unique 7 (Z.of_nat (Decimal.nb_digits d)) k v
                    ltac:(lia) ltac:(lia) Hk Hv Hc). lia.
    + destruct (pos_value p d 8) as (v & Hv & Hp); [now rewrite Hd|].
      rewrite Hp in Hc.
      pose proof (leading_digit_unique 8 (Z.of_nat (Decimal.nb_digits d)) k v
                    ltac:(lia) ltac:(lia) Hk Hv Hc). lia.
    + destruct (pos_value p d 9) as (v & Hv & Hp); [now rewrite Hd|].
      rewrite Hp in Hc.
      pose proof (leading_digit_unique 9 (Z.of_nat (Decimal.nb_digits d)) k v
                    ltac:(lia) ltac:(lia) Hk Hv Hc). lia.
Qed.

Lemma starts_with_4 (c : Z) :
  Js.startsWith (Js.num_to_string c) "4" = true
  <-> exists k, 0 <= k /\ 4 * 10 ^ k <= c < 5 * 10 ^ k.
Proof.
  unfold Js.startsWith, Js.num_to_string.
  destruct c as [|p|p]; cbn [Z.to_int NilZero.string_of_int].
  - split; [discriminate|].
    intros (k & Hk & H). assert (0 < 10 ^ k) by (apply Z.pow_pos_nonneg; lia). lia.
  - rewrite <- leading_four.
    pose proof (DecimalPos.Unsigned.to_uint_nonnil p) as Hnn.
    clear Hnn.
    destruct (Pos.to_uint p) as [|d|d|d|d|d|d|d|d|d|d];
      cbn [NilZero.string_of_uint NilEmpty.string_of_uint];
      (split; [intros H | intros [d' Hd']]);
      try discriminate; try (now eexists).
    destruct (NilEmpty.string_of_uint d); reflexivity.
  - split; [discriminate|].
    intros (k & Hk & H). assert (0 < 10 ^ k) by (apply Z.pow_pos_nonneg; lia). lia.
Qed.

(** C10: every [AppError] built from a message and a status code that
    JavaScript holds exactly is operational, carries that status code, and
    has status ['fail'] exactly when the decimal writing of the code starts
    with ['4'], that is when the code lies between 4 and 5 times a power of
    ten, and ['error'] otherwise; and the central handler gives status code
    500 and status ['error'] to an error that has neither field. *)
Theorem AppError_fields_and_handler_defaults :
  (forall (m : string) (c : Z),
      Z.abs c <= 9007199254740991 ->
      isOperational (AppError m c) = true
      /\ statusCode (AppError m c) = Some c
      /\ (status (AppError m c) = Some "fail"
          <-> exists k, 0 <= k /\ 4 * 10 ^ k <= c < 5 * 10 ^ k)
      /\ (status (AppError m c) = Some "error"
          <-> ~ exists k, 0 <= k /\ 4 * 10 ^ k <= c < 5 * 10 ^ k))
  /\ (forall (env : Env) nm msg op cd kp kv p v es,
         let err := mkJsError nm msg None None op cd kp kv p v es in
         statusCode (fst (errorHandler env err)) = Some 500
         /\ status (fst (errorHandler env err)) = Some "error").
Proof.
  split.
  - intros m c _. pose proof (starts_with_4 c) as H.
    unfold AppError; cbn [isOperational statusCode status].
    split; [reflexivity|]. split; [reflexivity|].
    destruct (Js.startsWith (Js.num_to_string c) "4"); split; split;
      try reflexivity; try discriminate.
    + intros _. now apply H.
    + intros Hn. exfalso. apply Hn. now apply H.
    + intros Hex. apply H in Hex. discriminate.
    + intros _ Hex. apply H in Hex. discriminate.
  - intros env nm msg op cd kp kv p v es err.
    unfold errorHandler. destruct (is_development env); simpl; auto.
Qed.

(** X23: for a status code JavaScript holds exactly, an [AppError] has
    status ['fail'] exactly when the code lies between 4 and 5 times a power
    of ten (4, 40..49, 400..499, 4000..4999, ...), and ['error'] for every
    other code, zero and the negative ones included. *)
Theorem AppError_fail_iff_leading_four (m : string) (c : Z) :
  Z.abs c <= 9007199254740991 ->
  (status (AppError m c) = Some "fail"
   <-> exists k, 0 <= k /\ 4 * 10 ^ k <= c < 5 * 10 ^ k)
  /\ (status (AppError m c) = Some "error"
      <-> forall k, 0 <= k -> ~ (4 * 10 ^ k <= c < 5 * 10 ^ k)).
Proof.
  intros _. pose proof (starts_with_4 c) as H.
  unfold AppError; cbn [status].
  destruct (Js.startsWith (Js.num_to_string c) "4").
  - split.
    + split; [intros _; now apply H | reflexivity].
    + split; [discriminate|].
      intros Hn. destruct (proj1 H eq_refl) as (k & Hk & Hc).
      now destruct (Hn k Hk).
  - split.
    + split; [discriminate|]. intros Hex. apply H in Hex. discriminate.
    + split; [|reflexivity].
      intros _ k Hk Hc.
      assert (Hex : exists k, 0 <= k /\ 4 * 10 ^ k <= c < 5 * 10 ^ k) by eauto.
      apply H in Hex. discriminate.
Qed.

(* ================================================================== *)
(** * The client on a failed login *)

Section ClientLogin.

Variable jwt_sign : JwtPayload -> string -> string.
Variable jwt_timespan : string -> Z -> option Z.
Variable bcrypt_compare : string -> string -> bool.

(** X22: a login with an unknown email, or with a password that does not
    match the stored hash, is answered 401 without a cookie in every mode,
    and the client's interceptor then sends the browser to [/login] and
    rejects the call. *)
Theorem client_login_redirect (env : Env) (now : Z) (mail pw : string)
        (w : World) (href : string) :
  find (by_email mail) (users w) = None
  \/ (exists u hash,
        find (by_email mail) (users w) = Some u
        /\ password u = Some hash
        /\ bcrypt_compare pw hash = false) ->
  let r := snd (route_login jwt_sign jwt_timespan bcrypt_compare env now
                  mail pw w) in
  res_status r = 401
  /\ res_cookie r = None
  /\ interceptor href (settle r) = ("/login", Rejected (Some r)).
Proof.
  intros H r.
  assert (Hr : r = snd (errorHandler env
                          (AppError "Incorrect email or password" 401))).
  { unfold r, route_login, asyncHandler.
    rewrite (login_rejected jwt_sign jwt_timespan bcrypt_compare env now
               mail pw w); [reflexivity|].
    destruct H as [->|(u & hash & -> & Hh & Hc)]; [exact I | eauto]. }
  destruct (errorHandler_AppError env "Incorrect email or password" 401)
    as (Hs & _ & Hc); [lia|].
  rewrite <- Hr in Hs, Hc.
  split; [exact Hs|]. split; [exact Hc|]. now apply interceptor_401.
Qed.

End ClientLogin.

(* ================================================================== *)
(** * Concrete runs of the further properties *)

Lemma protect_accepts_only_verified_active_witness :
  let req := Fixture.get_with_cookie Fixture.alice_token in
  let w := Fixture.world [Fixture.alice] in
  protect Fixture.verify Fixture.production 1000 req w
  = (mkWorld [Fixture.alice] [EvVerify Fixture.alice_token; EvFindById "u0"],
     Return (without_password Fixture.alice))
  /\ exists tok p u,
      extractToken req = Some tok
      /\ Fixture.verify tok "s3cret" 1000 = Decoded p
      /\ find (by_id (id p)) (users w) = Some u
      /\ isActive u = true.
Proof.
  intros req w. split; [reflexivity|].
  destruct (protect_accepts_only_verified_active Fixture.verify
              Fixture.production 1000 req w
              (mkWorld [Fixture.alice]
                 [EvVerify Fixture.alice_token; EvFindById "u0"])
              (without_password Fixture.alice) eq_refl)
    as (tok & p & u & He & _ & Hv & Hf & _ & Ha & _).
  exists tok, p, u. repeat split; assumption.
Defined.

Lemma protect_missing_user_witness :
  let req := Fixture.get_with_cookie Fixture.alice_token in
  find (by_id "u0") (users (Fixture.world [])) = None
  /\ snd (protect Fixture.verify Fixture.production 1000 req (Fixture.world []))
     = Throw (AppError "User no longer exists" 401).
Proof.
  intros req. split; [reflexivity|].
  refine (proj1 (protect_missing_user Fixture.verify Fixture.production 1000 req
                   (Fixture.world []) Fixture.alice_token
                   (mkPayload "u0" 0 604800) _ _ _ _));
    [reflexivity | discriminate | reflexivity | reflexivity].
Defined.

Lemma bearer_scheme_is_a_prefix_witness :
  let req := Fixture.get_with_header "BearerX abc.def ignored" in
  Js.truthy_str (cookies_token req) = false
  /\ has_space "X" = false /\ has_space "abc.def" = false
  /\ extractToken req = Some "abc.def".
Proof.
  intros req. repeat (split; [reflexivity|]).
  refine (bearer_scheme_is_a_prefix req "X" "abc.def" " ignored" _ _ _ _ _);
    [reflexivity | reflexivity | reflexivity
    | right; exists "ignored"; reflexivity | reflexivity].
Defined.

Lemma bearer_without_token_witness :
  let req := Fixture.get_with_header "Bearer  u0.0.604800.s3cret" in
  let w := Fixture.world [Fixture.alice] in
  Js.truthy_str (cookies_token req) = false
  /\ protect Fixture.verify Fixture.production 0 req w
     = (w, Throw (AppError "You are not logged in" 401)).
Proof.
  intros req w. split; [reflexivity|].
  refine (proj1 (bearer_without_token Fixture.verify Fixture.production 0 req w
                   "" _ _ _));
    [reflexivity | reflexivity
    | right; right; exists "u0.0.604800.s3cret"; reflexivity].
Defined.

Lemma errorHandler_hides_unexpected_witness :
  let err := plainError "connect ECONNREFUSED 10.0.0.7:27017" in
  is_development Fixture.production = false
  /\ isOperational err = false
  /\ recognised err = false
  /\ snd (errorHandler Fixture.production err)
     = mkResponse 500 None (ErrorBody "error" "Something went wrong!").
Proof.
  intros err. repeat (split; [reflexivity|]).
  apply (errorHandler_hides_unexpected Fixture.production err); reflexivity.
Defined.

Lemma errorHandler_recognised_witness :
  let err := mkJsError "CastError" "Cast to ObjectId failed" None None false
               (Some 11000) ["email"] [("email", "a@b.c")]
               (Some "_id") (Some "xyz") [] in
  recognised err = true
  /\ exists m,
      (res_status (snd (errorHandler Fixture.production err)) = 400
       \/ res_status (snd (errorHandler Fixture.production err)) = 401)
      /\ res_body (snd (errorHandler Fixture.production err)) = ErrorBody "fail" m.
Proof.
  intros err. split; [reflexivity|].
  refine (proj1 (errorHandler_recognised Fixture.production err eq_refl _ _)
            eq_refl).
  - intros _. split; discriminate.
  - discriminate.
Defined.

Lemma sentinel_cookie_shadows_header_witness :
  let req1 := Fixture.get_with_cookie Fixture.alice_token in
  let req2 := mkRequest "GET" (Some "none")
                (Some "Bearer u0.0.604800.s3cret") None None in
  let w := Fixture.world [Fixture.alice] in
  verify_error (Fixture.verify "none" "s3cret" 3000)
  = Some (JsonWebTokenError "jwt malformed")
  /\ extractToken req2 = Some "none"
  /\ snd (protect Fixture.verify Fixture.production 3000 req2 w)
     = Throw (JsonWebTokenError "jwt malformed").
Proof.
  intros req1 req2 w. split; [reflexivity|].
  destruct (sentinel_cookie_shadows_header Fixture.verify Fixture.production
              2000 3000 req1 req2 w w (without_password Fixture.alice)
              (JsonWebTokenError "jwt malformed"))
    as (H1 & H2 & _); [reflexivity | reflexivity | reflexivity |].
  split; [exact H1 | exact H2].
Defined.


Lemma csrf_rejects_only_if_witness :
  let req := mkRequest "POST" None None (Some "https://evil.example") None in
  csrfProtection Fixture.production req = Responds csrf_rejection
  /\ is_production Fixture.production = true
  /\ Js.includes ["GET"; "HEAD"; "OPTIONS"] (method req) = false.
Proof.
  intros req. split; [reflexivity|].
  destruct (csrf_rejects_only_if Fixture.production req csrf_rejection eq_refl)
    as (_ & Hp & Hm & _).
  split; [exact Hp | exact Hm].
Defined.

Lemma csrf_referer_prefix_passes_witness :
  let req := mkRequest "POST" None None None
               (Some "https://app.example.com.evil.net/transfer") in
  is_production Fixture.production = true
  /\ CORS_ORIGIN Fixture.production = Some "https://app.example.com"
  /\ csrfProtection Fixture.production req = Next.
Proof.
  intros req. split; [reflexivity|]. split; [reflexivity|].
  apply (csrf_referer_prefix_passes Fixture.production req
           "https://app.example.com" ".evil.net/transfer");
    [reflexivity | left; reflexivity | reflexivity].
Defined.

Lemma csrf_unset_origin_rejects_witness :
  let env := mkEnv (Some "production") "s3cret" None (Some 7) None in
  let req := mkRequest "POST" None None (Some "http://localhost:3000") None in
  cors_origin (corsOptions env) = "http://localhost:3000"
  /\ csrfProtection env req = Responds csrf_rejection.
Proof.
  intros env req.
  apply (csrf_unset_origin_rejects env req "http://localhost:3000");
    [reflexivity | reflexivity | reflexivity | reflexivity | discriminate].
Defined.

Lemma registerValidator_ignores_padding_witness :
  blank "  " = true
  /\ registerValidator (fun _ => true) (fun s => s)
       (mkRegisterBody "  alice " " alice@example.com  " " secret ")
     = ([], mkRegisterBody "alice" "alice@example.com" " secret ").
Proof.
  split; [reflexivity|].
  exact (eq_trans
           (proj1 (registerValidator_ignores_padding (fun _ => true) (fun s => s)
                     "alice" "alice@example.com" " secret "
                     "  " " " " " "  " eq_refl eq_refl eq_refl eq_refl))
           eq_refl).
Defined.

Lemma registerValidator_reports_both_witness :
  let b := mkRegisterBody " a! " "a@b.c" "secret1" in
  Validator.trim (rb_username b) = "a!"
  /\ exists rest,
      fst (registerValidator (fun _ => true) (fun s => s) b)
      = (mkFieldError "username"
           "Username must be between 3 and 30 characters" "a!"
         :: mkFieldError "username"
              "Username can only contain letters, numbers, and underscores" "a!"
         :: rest)%list.
Proof.
  intros b. split; [reflexivity|].
  exact (registerValidator_reports_both (fun _ => true) (fun s => s) b
           eq_refl eq_refl).
Defined.

Lemma post_login_validation_witness :
  let w := Fixture.world [Fixture.alice] in
  let bad := mkLoginBody "alice@example.com" "" in
  let good := mkLoginBody "  alice@example.com " "wrong" in
  post_login (fun _ => true) Fixture.sign Fixture.timespan Fixture.compare Fixture.production 0 bad w
  = (w, ValidationFailed 400 "error"
          [mkFieldError "password" "Password is required" ""])
  /\ fst (post_login (fun _ => true) Fixture.sign Fixture.timespan Fixture.compare
            Fixture.production 0 bad w) = w
  /\ post_login (fun _ => true) Fixture.sign Fixture.timespan Fixture.compare Fixture.production 0
       good w
     = (fst (route_login Fixture.sign Fixture.timespan Fixture.compare Fixture.production 0
               "alice@example.com" "wrong" w),
        Handled (snd (route_login Fixture.sign Fixture.timespan Fixture.compare Fixture.production 0
                        "alice@example.com" "wrong" w))).
Proof.
  intros w bad good. split; [reflexivity|]. split.
  - exact (proj1 (proj1 (post_login_validation (fun _ => true) Fixture.sign Fixture.timespan
                           Fixture.compare Fixture.production 0 bad w)
                    (or_intror eq_refl))).
  - refine (proj2 (post_login_validation (fun _ => true) Fixture.sign Fixture.timespan
                     Fixture.compare Fixture.production 0 good w) eq_refl _).
    discriminate.
Defined.

Lemma client_me_redirect_witness :
  let w := Fixture.world [Fixture.alice] in
  let expired := 8 * 86400000 in
  let req := Fixture.get_with_cookie Fixture.alice_token in
  verify_error (Fixture.verify Fixture.alice_token "s3cret" expired)
  = Some TokenExpiredError
  /\ interceptor "/profile"
       (settle (snd (route_me Fixture.verify Fixture.production expired req w)))
     = ("/login",
        Rejected (Some (snd (route_me Fixture.verify Fixture.production
                              expired req w))))
  /\ interceptor "/profile"
       (settle (snd (route_me Fixture.verify Fixture.development expired req w)))
     = ("/profile",
        Rejected (Some (snd (route_me Fixture.verify Fixture.development
                              expired req w)))).
Proof.
  intros w expired req. split; [reflexivity|]. split.
  - refine (proj1 (proj2 (client_me_redirect Fixture.verify Fixture.production
                            expired req w "/profile")
                     Fixture.alice_token TokenExpiredError eq_refl _ eq_refl)
              eq_refl).
    discriminate.
  - refine (proj2 (proj2 (client_me_redirect Fixture.verify Fixture.development
                            expired req w "/profile")
                     Fixture.alice_token TokenExpiredError eq_refl _ eq_refl)
              eq_refl).
    discriminate.
Defined.

Lemma client_login_redirect_witness :
  let w := Fixture.world [Fixture.alice] in
  let r := snd (route_login Fixture.sign Fixture.timespan Fixture.compare
                  Fixture.production 0 "alice@example.com" "wrong" w) in
  password Fixture.alice = Some (Fixture.hash "Secur3Pass!")
  /\ Fixture.compare "wrong" (Fixture.hash "Secur3Pass!") = false
  /\ res_status r = 401
  /\ interceptor "/login" (settle r) = ("/login", Rejected (Some r)).
Proof.
  intros w r. split; [reflexivity|]. split; [reflexivity|].
  destruct (client_login_redirect Fixture.sign Fixture.timespan Fixture.compare
              Fixture.production 0 "alice@example.com" "wrong" w "/login")
    as (H1 & _ & H3).
  - right. exists Fixture.alice, (Fixture.hash "Secur3Pass!").
    repeat split; reflexivity.
  - split; [exact H1 | exact H3].
Defined.

Lemma AppError_fail_iff_leading_four_witness :
  Z.abs 404 <= 9007199254740991
  /\ status (AppError "Not found" 404) = Some "fail"
  /\ exists k, 0 <= k /\ 4 * 10 ^ k <= 404 < 5 * 10 ^ k.
Proof.
  split; [vm_compute; discriminate|]. split; [reflexivity|].
  apply (proj1 (AppError_fail_iff_leading_four "Not found" 404
                  ltac:(vm_compute; discriminate))).
  reflexivity.
Defined.



Lemma AppError_fields_and_handler_defaults_witness :
  Z.abs 404 <= 9007199254740991
  /\ status (AppError "User not found" 404) = Some "fail"
  /\ (exists k, 0 <= k /\ 4 * 10 ^ k <= 404 < 5 * 10 ^ k)
  /\ status (AppError "Database connection failed" 500) = Some "error"
  /\ statusCode (fst (errorHandler Fixture.production (plainError "boom")))
     = Some 500.
Proof.
  destruct AppError_fields_and_handler_defaults as [Hfields Hdefaults].
  assert (Hb : Z.abs 404 <= 9007199254740991) by (vm_compute; discriminate).
  destruct (Hfields "User not found" 404 Hb) as (_ & _ & Hfail & _).
  split; [exact Hb|]. split; [reflexivity|].
  split; [apply Hfail; reflexivity|]. split; [reflexivity|].
  exact (proj1 (Hdefaults Fixture.production "Error" "boom" false None [] []
                  None None [])).
Defined.
